(** * TextLoggerHook: a shallow embedding and its specification

    The development follows
    [modelscope/trainers/hooks/logger/text_logger_hook.py]: the text logger
    hook of the trainer, which renders one line per logging tick and appends
    one JSON record per tick to a log file.

    Layout:
    - [PyFloat]: Python's [float] (IEEE 754 binary64, over [SpecFloat]) with
      the arithmetic, conversions and decimal formatting the hook uses;
    - [PyVal]: Python values, insertion-ordered dictionaries, numbers,
      exceptions, [str] and [timedelta];
    - [Env]: the constants, the trainer, the process and the file system the
      hook works with;
    - [Hook]: the hook itself, method by method, in a state-and-exception
      monad;
    - [Spec]: the notions the statements are written with;
    - [Sample]: concrete runs;
    - the lemmas, and the statements C1 to C10. *)

From Stdlib Require Import ZArith List String Ascii Bool Lia DecimalString.
From Stdlib Require Import Floats.SpecFloat.
From stdpp Require Import base option list strings gmap.

Local Open Scope Z_scope.

(** ** Python floats *)

Module PyFloat.

(** Binary64: 53 bits of mantissa, infinities at exponent 1024. *)
Definition prec : Z := 53.
Definition emax : Z := 1024.

Definition float : Type := spec_float.

Definition fadd : float -> float -> float := SFadd prec emax.
Definition fmul : float -> float -> float := SFmul prec emax.
Definition fdiv : float -> float -> float := SFdiv prec emax.

Definition is_finite (x : float) : bool :=
  match x with
  | S754_zero _ | S754_finite _ _ _ => true
  | _ => false
  end.

Definition is_zero (x : float) : bool :=
  match x with
  | S754_zero _ => true
  | _ => false
  end.

(** [float(z)] for a Python int: the nearest double, ties to even; an
    infinite result stands for the OverflowError Python raises. *)
Definition of_Z (z : Z) : float := binary_normalize prec emax z 0 false.

(** The double nearest to the rational [n / d] (ties to even), with the
    sign [s]: what [int / int] and the parsing of a decimal produce. *)
Definition of_ratio (s : bool) (n : Z) (d : positive) : float :=
  match n with
  | Zpos p =>
      let '(mz, ez, lz) := SFdiv_core_binary prec emax (Zpos p) 0 (Zpos d) 0 in
      binary_round_aux prec emax s mz ez lz
  | _ => S754_zero s
  end.

(** The literal [m * 10^e], as Python reads it. *)
Definition dec (m e : Z) : float :=
  let s := m <? 0 in
  match e with
  | Zneg k => of_ratio s (Z.abs m) (Pos.pow 10 k)
  | _ => of_ratio s (Z.abs m * 10 ^ e) 1
  end.

(** The exact value of a finite non-zero float as a fraction [n / d]. *)
Definition exact (m : positive) (e : Z) : Z * Z :=
  match e with
  | Zneg k => (Zpos m, 2 ^ Zpos k)
  | _ => (Zpos m * 2 ^ e, 1)
  end.

(** [n / d] rounded to the nearest integer, ties to the even one
    ([0 <= n], [0 < d]). *)
Definition round_half_even (n d : Z) : Z :=
  let q := n / d in
  let r := n mod d in
  match 2 * r ?= d with
  | Lt => q
  | Gt => q + 1
  | Eq => if Z.even q then q else q + 1
  end.

(** [int(x)]: truncation towards zero; [None] on nan and the infinities. *)
Definition trunc (x : float) : option Z :=
  match x with
  | S754_zero _ => Some 0
  | S754_finite s m e =>
      let '(n, d) := exact m e in
      Some (if s then - (n / d) else n / d)
  | _ => None
  end.

(** *** Decimal text *)

(** [str(n)] for a natural number. *)
Definition str_nat (n : Z) : string :=
  NilZero.string_of_uint (N.to_uint (Z.to_N n)).

(** [str(z)] for a Python int. *)
Definition str_Z (z : Z) : string :=
  if z <? 0 then "-" +:+ str_nat (- z) else str_nat z.

Fixpoint zeros (k : nat) : string :=
  match k with
  | O => ""
  | S k' => "0" +:+ zeros k'
  end.

(** [s] padded with zeros on the left up to [width] characters. *)
Definition pad_left (width : nat) (s : string) : string :=
  zeros (width - String.length s) +:+ s.

Definition sign_str (s : bool) : string := if s then "-" else "".

(** The scaled integer [N] printed with [nd] digits after the point. *)
Definition fixed_digits (nd : nat) (N : Z) : string :=
  let p := 10 ^ Z.of_nat nd in
  str_nat (N / p) +:+
  match nd with
  | O => ""
  | _ => "." +:+ pad_left nd (str_nat (N mod p))
  end.

(** [format(x, '.<nd>f')]: the exact binary value, correctly rounded
    (ties to even) to [nd] digits after the point. *)
Definition fmt_f (nd : nat) (x : float) : string :=
  match x with
  | S754_nan => "nan"
  | S754_infinity s => sign_str s +:+ "inf"
  | S754_zero s => sign_str s +:+ fixed_digits nd 0
  | S754_finite s m e =>
      let '(n, d) := exact m e in
      sign_str s +:+ fixed_digits nd (round_half_even (n * 10 ^ Z.of_nat nd) d)
  end.

(** [n / d] scaled by [10^k] and rounded to an integer, ties to even. *)
Definition scale_round (n d k : Z) : Z :=
  if 0 <=? k then round_half_even (n * 10 ^ k) d
  else round_half_even n (d * 10 ^ (- k)).

(** [floor (log10 (n / d))] for positive [n] and [d]. *)
Definition dec_exponent (n d : Z) : Z :=
  let c := Z.of_nat (String.length (str_nat n)) - Z.of_nat (String.length (str_nat d)) in
  let reaches := if 0 <=? c then d * 10 ^ c <=? n else d <=? n * 10 ^ (- c) in
  if reaches then c else c - 1.

(** Mantissa digits [N] (one before the point, [nd] after) and exponent. *)
Definition sci_digits (nd : nat) (N k : Z) : string :=
  fixed_digits nd N +:+ "e" +:+ (if k <? 0 then "-" else "+") +:+
  pad_left 2 (str_nat (Z.abs k)).

(** [format(x, '.<nd>e')]: [nd + 1] significant digits, correctly
    rounded, and an exponent of at least two digits. *)
Definition fmt_e (nd : nat) (x : float) : string :=
  match x with
  | S754_nan => "nan"
  | S754_infinity s => sign_str s +:+ "inf"
  | S754_zero s => sign_str s +:+ sci_digits nd 0 0
  | S754_finite s m e =>
      let '(n, d) := exact m e in
      let k := dec_exponent n d in
      let N := scale_round n d (Z.of_nat nd - k) in
      sign_str s +:+
      (if 10 ^ (Z.of_nat nd + 1) <=? N then sci_digits nd (N / 10) (k + 1)
       else sci_digits nd N k)
  end.

(** [round(x, nd)] for [0 <= nd]: the decimal with [nd] digits after the
    point nearest to [x] (ties to even), read back as the nearest double;
    nan and the infinities round to themselves. *)
Definition round_nd (nd : nat) (x : float) : float :=
  match x with
  | S754_finite s m e =>
      let '(n, d) := exact m e in
      of_ratio s (round_half_even (n * 10 ^ Z.of_nat nd) d) (Z.to_pos (10 ^ Z.of_nat nd))
  | _ => x
  end.

End PyFloat.

(** ** Python values *)

Module PyVal.
Import PyFloat.

(** The exceptions the hook can let through. *)
Inductive exn : Type :=
| KeyError (key : string)
| TypeError
| ValueError
| OverflowError
| ZeroDivisionError
| AttributeError (attr : string).

Inductive result (A : Type) : Type :=
| Ok (a : A)
| Raise (e : exn).
Arguments Ok {A} a.
Arguments Raise {A} e.

Definition rbind {A B : Type} (r : result A) (k : A -> result B) : result B :=
  match r with
  | Ok a => k a
  | Raise e => Raise e
  end.

(** Values a metric snapshot holds. A [dict] keeps its items in insertion
    order; its keys are strings and occur once. *)
#[local] Unset Elimination Schemes.
Inductive value : Type :=
| VNone
| VBool (b : bool)
| VInt (z : Z)
| VFloat (f : float)
| VStr (s : string)
| VList (items : list value)
| VDict (items : list (string * value)).
#[local] Set Elimination Schemes.

Definition dict : Type := list (string * value).

Definition keys (d : dict) : list string := map fst d.

(** [k in d] *)
Definition dict_mem (k : string) (d : dict) : bool :=
  existsb (String.eqb k) (keys d).

(** [d.get(k)] *)
Fixpoint dict_get (d : dict) (k : string) : option value :=
  match d with
  | [] => None
  | (k', v) :: d' => if String.eqb k k' then Some v else dict_get d' k
  end.

(** [d[k]] *)
Definition getitem (d : dict) (k : string) : result value :=
  match dict_get d k with
  | Some v => Ok v
  | None => Raise (KeyError k)
  end.

(** [d[k] = v]: an existing key keeps its place, a new one goes last. *)
Fixpoint dict_set (d : dict) (k : string) (v : value) : dict :=
  match d with
  | [] => [(k, v)]
  | (k', v') :: d' =>
      if String.eqb k k' then (k', v) :: d' else (k', v') :: dict_set d' k v
  end.

(** [dict(d, **extra)] *)
Definition dict_merge (d extra : dict) : dict :=
  fold_left (fun acc kv => dict_set acc (fst kv) (snd kv)) extra d.

(** *** Numbers *)

Inductive num : Type :=
| NInt (z : Z)
| NFloat (f : float).

(** The number a value stands for in arithmetic ([bool] is an [int]). *)
Definition as_num (v : value) : option num :=
  match v with
  | VBool b => Some (NInt (if b then 1 else 0))
  | VInt z => Some (NInt z)
  | VFloat f => Some (NFloat f)
  | _ => None
  end.

Definition to_float (n : num) : result float :=
  match n with
  | NFloat f => Ok f
  | NInt z => let f := of_Z z in if is_finite f then Ok f else Raise OverflowError
  end.

Definition float_op (op : float -> float -> float) (a b : num) : result num :=
  rbind (to_float a) (fun fa =>
  rbind (to_float b) (fun fb => Ok (NFloat (op fa fb)))).

(** [a + b] *)
Definition py_add (a b : num) : result num :=
  match a, b with
  | NInt x, NInt y => Ok (NInt (x + y))
  | _, _ => float_op fadd a b
  end.

(** [a * b] *)
Definition py_mul (a b : num) : result num :=
  match a, b with
  | NInt x, NInt y => Ok (NInt (x * y))
  | _, _ => float_op fmul a b
  end.

(** [a / b]: true division, correctly rounded on two ints. *)
Definition py_truediv (a b : num) : result num :=
  match a, b with
  | NInt x, NInt y =>
      if y =? 0 then Raise ZeroDivisionError
      else
        let f := of_ratio (xorb (x <? 0) (y <? 0)) (Z.abs x) (Z.to_pos (Z.abs y)) in
        if is_finite f then Ok (NFloat f) else Raise OverflowError
  | _, _ =>
      rbind (to_float a) (fun fa =>
      rbind (to_float b) (fun fb =>
      if is_zero fb then Raise ZeroDivisionError else Ok (NFloat (fdiv fa fb))))
  end.

(** [int(a)] *)
Definition py_int (a : num) : result Z :=
  match a with
  | NInt z => Ok z
  | NFloat S754_nan => Raise ValueError
  | NFloat f =>
      match trunc f with
      | Some z => Ok z
      | None => Raise OverflowError
      end
  end.

(** *** Text *)

(** [format(v, spec)] for a float presentation [spec], given as the
    formatter of floats: an int is converted first, a str refuses the
    format code, the other types have no such format. *)
Definition format_with (fmt : float -> string) (v : value) : result string :=
  match v with
  | VStr _ => Raise ValueError
  | _ =>
      match as_num v with
      | Some n => rbind (to_float n) (fun f => Ok (fmt f))
      | None => Raise TypeError
      end
  end.

(** [f'{v:.3e}'], [f'{v:.3f}'] *)
Definition format_3e : value -> result string := format_with (fmt_e 3).
Definition format_3f : value -> result string := format_with (fmt_f 3).

Section Str.
(** [str] of a float or of a container is the interpreter's [repr],
    which the hook does not define. *)
Variable repr : value -> string.

(** [str(v)], hence [f'{v}'] *)
Definition py_str (v : value) : string :=
  match v with
  | VNone => "None"
  | VBool true => "True"
  | VBool false => "False"
  | VInt z => str_Z z
  | VStr s => s
  | _ => repr v
  end.
End Str.

(** [', '.join(items)] and the like *)
Fixpoint join (sep : string) (items : list string) : string :=
  match items with
  | [] => ""
  | [s] => s
  | s :: rest => s +:+ sep +:+ join sep rest
  end.

(** ["%d:%02d:%02d" % (hh, mm, ss)] for the seconds of a day. *)
Definition hms (seconds : Z) : string :=
  let mm := seconds / 60 in
  let ss := seconds mod 60 in
  let hh := mm / 60 in
  let mm := mm mod 60 in
  str_Z hh +:+ ":" +:+ pad_left 2 (str_nat mm) +:+ ":" +:+ pad_left 2 (str_nat ss).

(** [str(datetime.timedelta(seconds=n))] for an int [n]: days are
    normalised out of the seconds, and bounded by 999999999 either way. *)
Definition timedelta_str (n : Z) : result string :=
  let days := n / 86400 in
  let seconds := n mod 86400 in
  if 999999999 <? Z.abs days then Raise OverflowError
  else
    let s := hms seconds in
    Ok (if days =? 0 then s
        else str_Z days +:+ " day" +:+ (if Z.abs days =? 1 then "" else "s") +:+ ", " +:+ s).

End PyVal.

(** ** The process and the trainer around the hook *)

Module Env.
Import PyFloat PyVal.

(** The names of [LogKeys] and of [ModeKeys.TRAIN]
    ([modelscope.utils.constant]); the hook only reads them. *)
Record LogKeys : Type := {
  LR : string;
  EPOCH : string;
  ITER : string;
  MODE : string;
  ITER_TIME : string;
  DATA_LOAD_TIME : string;
  ETA : string;
  MEMORY : string;
  TRAIN : string
}.

(** Modelled from the spec: [LogKeys] and [ModeKeys] are declared in
    [modelscope.utils.constant], outside [text_logger_hook.py]. The rendered
    formats of the specification give ["lr"], ["epoch"] and ["iter"]; [log]
    itself names [mode], [epoch] and [iter] as keyword arguments; the
    timing, ETA and memory figures get the names the specification uses for
    them. The statements hold for any names; the samples use these. *)
Definition default_keys : LogKeys := {|
  LR := "lr";
  EPOCH := "epoch";
  ITER := "iter";
  MODE := "mode";
  ITER_TIME := "iter_time";
  DATA_LOAD_TIME := "data_load_time";
  ETA := "eta";
  MEMORY := "memory";
  TRAIN := "train"
|}.

(** What the hook reads of the trainer. [meta] is [None] when the trainer
    has no such attribute and [Some None] when the attribute is [None]. *)
Record Trainer : Type := {
  mode : string;
  iter : Z;
  max_iters : Z;
  iters_per_epoch : Z;
  work_dir : string;
  timestamp : string;
  meta : option (option dict);
  log_buffer_output : dict
}.

(** One process of the run: its rank, the [max_memory_allocated] reading
    (in bytes) of every rank of the run, in rank order, and whether CUDA is
    there. [get_dist_info] is [(rank, world_size)]. *)
Record Process : Type := {
  rank : nat;
  readings : list Z;
  cuda_is_available : bool
}.

Definition world_size (p : Process) : Z := Z.of_nat (length (readings p)).

(** Modelled from the spec: [is_master] is defined in
    [modelscope.utils.torch_utils], outside [text_logger_hook.py]; the
    single writer is rank 0. *)
Definition is_master (p : Process) : bool := Nat.eqb (rank p) 0.

(** What lies outside the process: the lines given to [trainer.logger],
    the directories that exist, and the files, each a sequence of JSON
    documents, one per line. *)
Record System : Type := {
  sink : list string;
  dirs : gset string;
  files : gmap string (list dict)
}.

(** [os.path.exists] *)
Definition exists_path (sys : System) (path : string) : bool :=
  bool_decide (path ∈ dirs sys) || bool_decide (is_Some (files sys !! path)).

(** [os.makedirs]: the leaf is recorded. *)
Definition makedirs (path : string) (sys : System) : System :=
  {| sink := sink sys; dirs := {[path]} ∪ dirs sys; files := files sys |}.

(** [logger.info(line)] *)
Definition emit (line : string) (sys : System) : System :=
  {| sink := sink sys ++ [line]; dirs := dirs sys; files := files sys |}.

(** [open(path, 'a+')], one document and a newline written: the file is
    created when absent. *)
Definition append_line (path : string) (doc : dict) (sys : System) : System :=
  {| sink := sink sys;
     dirs := dirs sys;
     files := <[path := default [] (files sys !! path) ++ [doc]]> (files sys) |}.

Definition starts_with_sep (s : string) : bool :=
  match s with
  | String "/" _ => true
  | _ => false
  end.

Fixpoint ends_with_sep (s : string) : bool :=
  match s with
  | EmptyString => false
  | String c EmptyString => Ascii.eqb c "/"
  | String _ rest => ends_with_sep rest
  end.

(** [os.path.join(a, b)] on POSIX *)
Definition osp_join (a b : string) : string :=
  if starts_with_sep b then b
  else if String.eqb a "" || ends_with_sep a then a +:+ b
  else a +:+ "/" +:+ b.

(** [max] over a non-empty list. *)
Definition max_list (l : list Z) : Z :=
  match l with
  | [] => 0
  | x :: rest => fold_left Z.max rest x
  end.

(** The integer tensor holding [mem / (1024 * 1024)]: the quotient is
    exact in binary64 below 2^53 bytes and the conversion to [torch.int]
    drops the fraction. *)
Definition mem_mb (mem : Z) : Z := Z.quot mem (1024 * 1024).

Section Reduce.
(** [dist.reduce] leaves the result in the tensor of the destination
    rank only; what the tensor of another rank holds afterwards is up to
    the backend, given here by rank and by the tensors of all ranks. *)
Variable nondst : nat -> list Z -> Z.

(** [dist.reduce(t, dst, op=MAX)], seen from the rank [r]. *)
Definition dist_reduce_max (dst : nat) (tensors : list Z) (r : nat) : Z :=
  if Nat.eqb r dst then max_list tensors else nondst r tensors.
End Reduce.

(** The in-place backend: a tensor that is not the destination keeps the
    value it had. *)
Definition keep_local (r : nat) (tensors : list Z) : Z := nth r tensors 0.

End Env.

(** ** The hook *)

Module Hook.
Import PyFloat PyVal Env.

(** The attributes of a [TextLoggerHook]. [start_iter] and
    [json_log_path] exist once [before_run] has set them. *)
Record TextLoggerHook : Type := {
  by_epoch : bool;
  interval : Z;
  time_sec_tot : num;
  out_dir : option string;
  _logged_keys : list string;
  start_iter : option Z;
  json_log_path : option string
}.

(** [__init__]; [ignore_last] and [reset_flag] go to the base class only. *)
Definition __init__ (by_epoch : bool) (interval : Z) (out_dir : option string)
  : TextLoggerHook := {|
  by_epoch := by_epoch;
  interval := interval;
  time_sec_tot := NInt 0;
  out_dir := out_dir;
  _logged_keys := [];
  start_iter := None;
  json_log_path := None
|}.

Definition set_time_sec_tot (t : num) (h : TextLoggerHook) : TextLoggerHook :=
  {| by_epoch := by_epoch h; interval := interval h; time_sec_tot := t;
     out_dir := out_dir h; _logged_keys := _logged_keys h;
     start_iter := start_iter h; json_log_path := json_log_path h |}.

Definition set_out_dir (o : string) (h : TextLoggerHook) : TextLoggerHook :=
  {| by_epoch := by_epoch h; interval := interval h; time_sec_tot := time_sec_tot h;
     out_dir := Some o; _logged_keys := _logged_keys h;
     start_iter := start_iter h; json_log_path := json_log_path h |}.

Definition extend_logged_keys (ks : list string) (h : TextLoggerHook) : TextLoggerHook :=
  {| by_epoch := by_epoch h; interval := interval h; time_sec_tot := time_sec_tot h;
     out_dir := out_dir h; _logged_keys := _logged_keys h ++ ks;
     start_iter := start_iter h; json_log_path := json_log_path h |}.

Definition set_start_iter (i : Z) (h : TextLoggerHook) : TextLoggerHook :=
  {| by_epoch := by_epoch h; interval := interval h; time_sec_tot := time_sec_tot h;
     out_dir := out_dir h; _logged_keys := _logged_keys h;
     start_iter := Some i; json_log_path := json_log_path h |}.

Definition set_json_log_path (path : string) (h : TextLoggerHook) : TextLoggerHook :=
  {| by_epoch := by_epoch h; interval := interval h; time_sec_tot := time_sec_tot h;
     out_dir := out_dir h; _logged_keys := _logged_keys h;
     start_iter := start_iter h; json_log_path := Some path |}.

(** The state a method runs on: the hook and what lies outside. *)
Record World : Type := {
  self : TextLoggerHook;
  sys : System
}.

(** A method changes the state and returns or raises; what it changed
    before raising stays changed. *)
Definition M (A : Type) : Type := World -> World * result A.

Definition ret {A : Type} (a : A) : M A := fun w => (w, Ok a).

Definition bind {A B : Type} (m : M A) (k : A -> M B) : M B :=
  fun w =>
    match m w with
    | (w', Ok a) => k a w'
    | (w', Raise e) => (w', Raise e)
    end.

Definition lift {A : Type} (r : result A) : M A := fun w => (w, r).

Definition get_self : M TextLoggerHook := fun w => (w, Ok (self w)).

Definition get_sys : M System := fun w => (w, Ok (sys w)).

Definition modify_self (f : TextLoggerHook -> TextLoggerHook) : M unit :=
  fun w => ({| self := f (self w); sys := sys w |}, Ok tt).

Definition modify_sys (f : System -> System) : M unit :=
  fun w => ({| self := self w; sys := f (sys w) |}, Ok tt).

(** Reading an attribute that may not be set yet. *)
Definition attr {A : Type} (name : string) (o : option A) : M A :=
  match o with
  | Some a => ret a
  | None => lift (Raise (AttributeError name))
  end.

Notation "x <- m ;; k" := (bind m (fun x => k))
  (at level 100, m at next level, right associativity).
Notation "m ;;; k" := (bind m (fun _ => k))
  (at level 100, right associativity).

Definition tab : string := String (ascii_of_nat 9) EmptyString.

(** [_round_float]: the recursive call passes no [ndigits], so the items
    of a list are rounded to the default 5 digits. *)
Fixpoint _round_float (items : value) (ndigits : nat) : value :=
  match items with
  | VList l => VList (map (fun item => _round_float item 5) l)
  | VFloat f => VFloat (round_nd ndigits f)
  | _ => items
  end.

(** The loop of [_dump_log] that fills [json_log]. *)
Definition json_log_of (log_dict : dict) : dict :=
  fold_left (fun json_log kv => dict_set json_log (fst kv) (_round_float (snd kv) 5))
    log_dict [].

(** [name in self._logged_keys] *)
Definition logged (name : string) (logged_keys : list string) : bool :=
  existsb (String.eqb name) logged_keys.

Section Methods.
Variable K : LogKeys.
Variable repr : value -> string.
Variable nondst : nat -> list Z -> Z.
(** [get_epoch] and [get_iter] come from the base class [LoggerHook]. *)
Variable get_epoch : Trainer -> result value.
Variable get_iter : TextLoggerHook -> Trainer -> bool -> result value.
Variable p : Process.

Definition _dump_log (log_dict : dict) : M unit :=
  let json_log := json_log_of log_dict in
  if is_master p then
    h <- get_self ;;
    path <- attr "json_log_path" (json_log_path h) ;;
    modify_sys (append_line path json_log)
  else ret tt.

(** [before_run], after [super().before_run], which belongs to the base
    class and is taken to do nothing. *)
Definition before_run (trainer : Trainer) : M unit :=
  h <- get_self ;;
  out <- match out_dir h with
         | None => modify_self (set_out_dir (work_dir trainer)) ;;; ret (work_dir trainer)
         | Some o => ret o
         end ;;
  s <- get_sys ;;
  (if negb (exists_path s out) && is_master p then modify_sys (makedirs out)
   else ret tt) ;;;
  modify_sys (emit ("Text logs will be saved to " +:+ out)) ;;;
  modify_self (set_start_iter (iter trainer)) ;;;
  modify_self (set_json_log_path (osp_join out (timestamp trainer +:+ ".log.json"))) ;;;
  match meta trainer with
  | Some (Some m) => _dump_log m
  | _ => ret tt
  end.

Definition _get_max_memory : Z :=
  let mem := nth (rank p) (readings p) 0 in
  let mem_mb := mem_mb mem in
  if 1 <? world_size p
  then dist_reduce_max nondst 0 (map Env.mem_mb (readings p)) (rank p)
  else mem_mb.

(** The loop over the groups of a learning-rate dict. *)
Fixpoint lr_group_items (groups : dict) : result (list string) :=
  match groups with
  | [] => Ok []
  | (k, val) :: rest =>
      rbind (format_3e val) (fun s =>
      rbind (lr_group_items rest) (fun items =>
      Ok ((LR K +:+ "_" +:+ k +:+ ": " +:+ s) :: items)))
  end.

Definition lr_str_of (lr : value) : result string :=
  match lr with
  | VDict groups => rbind (lr_group_items groups) (fun items => Ok (join " " items))
  | _ => rbind (format_3e lr) (fun s => Ok (LR K +:+ ": " +:+ s))
  end.

Definition train_prefix (by_epoch : bool) (log_dict : dict) (trainer : Trainer)
  : result string :=
  if by_epoch then
    rbind (getitem log_dict (EPOCH K)) (fun e =>
    rbind (getitem log_dict (ITER K)) (fun i =>
    Ok (EPOCH K +:+ " [" +:+ py_str repr e +:+ "][" +:+ py_str repr i +:+ "/" +:+
        str_Z (iters_per_epoch trainer) +:+ "]" +:+ tab)))
  else
    rbind (getitem log_dict (ITER K)) (fun i =>
    Ok (ITER K +:+ " [" +:+ py_str repr i +:+ "/" +:+ str_Z (max_iters trainer) +:+
        "]" +:+ tab)).

Definition eval_prefix (by_epoch : bool) (mode_val : value) (log_dict : dict)
  : result string :=
  if by_epoch then
    rbind (getitem log_dict (EPOCH K)) (fun e =>
    rbind (getitem log_dict (ITER K)) (fun i =>
    Ok (EPOCH K +:+ "(" +:+ py_str repr mode_val +:+ ") [" +:+ py_str repr e +:+ "][" +:+
        py_str repr i +:+ "]" +:+ tab)))
  else
    rbind (getitem log_dict (ITER K)) (fun i =>
    Ok (ITER K +:+ "(" +:+ py_str repr mode_val +:+ ") [" +:+ py_str repr i +:+ "]" +:+
        tab)).

(** [log_dict[iter_time_key] * self.interval]: a number times an int. On
    a str or a list the product is a repetition and the sum that follows
    raises the same TypeError. *)
Definition times_interval (iter_time : value) (interval : Z) : result num :=
  match as_num iter_time with
  | Some n => py_mul n (NInt interval)
  | None => Raise TypeError
  end.

(** The body of [if iter_time_key in log_dict.keys()], returning the
    segments it adds to [log_str]. *)
Definition timing_segments (log_dict : dict) (trainer : Trainer) : M string :=
  h <- get_self ;;
  iter_time <- lift (getitem log_dict (ITER_TIME K)) ;;
  inc <- lift (times_interval iter_time (interval h)) ;;
  tot <- lift (py_add (time_sec_tot h) inc) ;;
  modify_self (set_time_sec_tot tot) ;;;
  start <- attr "start_iter" (start_iter h) ;;
  time_sec_avg <- lift (py_truediv tot (NInt (iter trainer - start + 1))) ;;
  eta_sec <- lift (py_mul time_sec_avg (NInt (max_iters trainer - iter trainer - 1))) ;;
  seconds <- lift (py_int eta_sec) ;;
  eta_str <- lift (timedelta_str seconds) ;;
  iter_time_str <- lift (format_3f iter_time) ;;
  data_load_time <- lift (getitem log_dict (DATA_LOAD_TIME K)) ;;
  data_load_time_str <- lift (format_3f data_load_time) ;;
  modify_self (extend_logged_keys [ITER_TIME K; DATA_LOAD_TIME K]) ;;;
  ret (ETA K +:+ ": " +:+ eta_str +:+ ", " +:+
       ITER_TIME K +:+ ": " +:+ iter_time_str +:+ ", " +:+
       DATA_LOAD_TIME K +:+ ": " +:+ data_load_time_str +:+ ", ").

(** One item of the trailing segment. *)
Definition log_item (name : string) (val : value) : string :=
  name +:+ ": " +:+
  match val with
  | VFloat f => fmt_f 4 f
  | _ => py_str repr val
  end.

(** The loop that fills [log_items]. *)
Fixpoint log_items (logged_keys : list string) (items : dict) : list string :=
  match items with
  | [] => []
  | (name, val) :: rest =>
      if logged name logged_keys then log_items logged_keys rest
      else log_item name val :: log_items logged_keys rest
  end.

(** [_log_info] up to the call of the logger: the line it builds. *)
Definition render_text (log_dict : dict) (trainer : Trainer) : M string :=
  mode_val <- lift (getitem log_dict (MODE K)) ;;
  h <- get_self ;;
  log_str <-
    match mode_val with
    | VStr m =>
        if String.eqb m (TRAIN K) then
          lr <- lift (getitem log_dict (LR K)) ;;
          lr_str <- lift (lr_str_of lr) ;;
          prefix <- lift (train_prefix (by_epoch h) log_dict trainer) ;;
          modify_self (extend_logged_keys [LR K; MODE K; ITER K; EPOCH K]) ;;;
          if dict_mem (ITER_TIME K) log_dict then
            timing <- timing_segments log_dict trainer ;;
            ret (prefix +:+ lr_str +:+ ", " +:+ timing)
          else ret (prefix +:+ lr_str +:+ ", ")
        else
          prefix <- lift (eval_prefix (by_epoch h) mode_val log_dict) ;;
          modify_self (extend_logged_keys [MODE K; ITER K; EPOCH K]) ;;;
          ret prefix
    | _ =>
        prefix <- lift (eval_prefix (by_epoch h) mode_val log_dict) ;;
        modify_self (extend_logged_keys [MODE K; ITER K; EPOCH K]) ;;;
        ret prefix
    end ;;
  h' <- get_self ;;
  ret (log_str +:+ join ", " (log_items (_logged_keys h') log_dict)).

Definition _log_info (log_dict : dict) (trainer : Trainer) : M unit :=
  log_str <- render_text log_dict trainer ;;
  if is_master p then modify_sys (emit log_str) else ret tt.

(** The [OrderedDict] of [log], with the memory figure when CUDA is
    there, before the buffer of the trainer is merged in. *)
Definition base_snapshot (trainer : Trainer) (epoch cur_iter : value) : dict :=
  let log_dict := [("mode", VStr (mode trainer)); ("epoch", epoch); ("iter", cur_iter)] in
  if cuda_is_available p then dict_set log_dict (MEMORY K) (VInt _get_max_memory)
  else log_dict.

Definition log (trainer : Trainer) : M dict :=
  h <- get_self ;;
  cur_iter <- lift (get_iter h trainer true) ;;
  epoch <- lift (get_epoch trainer) ;;
  let log_dict := base_snapshot trainer epoch cur_iter in
  let log_dict := dict_merge log_dict (log_buffer_output trainer) in
  _log_info log_dict trainer ;;;
  _dump_log log_dict ;;;
  ret log_dict.

End Methods.

End Hook.

(** ** Notions the statements use *)

Module Spec.
Import PyFloat PyVal Env Hook.

(** A step into a value: the item of a list, or the value under a key of
    a nested mapping. *)
Inductive step : Type :=
| Idx (i : nat)
| Key (k : string).

Definition is_key (s : step) : bool :=
  match s with
  | Key _ => true
  | Idx _ => false
  end.

(** The value a path of steps leads to, if any. *)
Fixpoint get_path (v : value) (path : list step) : option value :=
  match path with
  | [] => Some v
  | Idx i :: rest =>
      match v with
      | VList l =>
          match nth_error l i with
          | Some x => get_path x rest
          | None => None
          end
      | _ => None
      end
  | Key k :: rest =>
      match v with
      | VDict d =>
          match dict_get d k with
          | Some x => get_path x rest
          | None => None
          end
      | _ => None
      end
  end.

Definition is_float (v : value) : bool :=
  match v with
  | VFloat _ => true
  | _ => false
  end.

Definition is_list (v : value) : bool :=
  match v with
  | VList _ => true
  | _ => false
  end.

(** The items of a snapshot whose name is not marked as logged: those the
    trailing segment renders, in order. *)
Definition unlogged (logged_keys : list string) (d : dict) : dict :=
  List.filter (fun kv => negb (logged (fst kv) logged_keys)) d.

(** The snapshot of a training tick. *)
Definition is_train (K : LogKeys) (d : dict) : Prop :=
  dict_get d (MODE K) = Some (VStr (TRAIN K)).

(** What a training tick with the iteration time does, from the state
    [w] to the state [w'] and the line [line]: the accumulator grows by
    [iter_time * interval]; the average divides it by
    [iter - start_iter + 1]; the ETA multiplies that by
    [max_iters - iter - 1]; its integer part is rendered as a duration,
    followed by the two times with three decimals; the keys are marked;
    the items not marked follow. *)
Definition eta_rendering (K : LogKeys) (repr : value -> string)
    (d : dict) (tr : Trainer) (w w' : World) (line : string) : Prop :=
  exists lr lr_str prefix iter_time n inc tot start avg eta seconds eta_str it_str dl dl_str,
    dict_get d (LR K) = Some lr /\
    lr_str_of K lr = Ok lr_str /\
    train_prefix K repr (by_epoch (self w)) d tr = Ok prefix /\
    dict_get d (ITER_TIME K) = Some iter_time /\
    as_num iter_time = Some n /\
    py_mul n (NInt (interval (self w))) = Ok inc /\
    py_add (time_sec_tot (self w)) inc = Ok tot /\
    time_sec_tot (self w') = tot /\
    start_iter (self w) = Some start /\
    py_truediv tot (NInt (iter tr - start + 1)) = Ok avg /\
    py_mul avg (NInt (max_iters tr - iter tr - 1)) = Ok eta /\
    py_int eta = Ok seconds /\
    timedelta_str seconds = Ok eta_str /\
    (0 <= seconds < 86400 -> eta_str = hms seconds) /\
    (86400 <= seconds ->
     eta_str = str_Z (seconds / 86400) +:+ " day" +:+
               (if seconds / 86400 =? 1 then "" else "s") +:+ ", " +:+
               hms (seconds mod 86400)) /\
    format_3f iter_time = Ok it_str /\
    dict_get d (DATA_LOAD_TIME K) = Some dl /\
    format_3f dl = Ok dl_str /\
    w' = {| self := extend_logged_keys [ITER_TIME K; DATA_LOAD_TIME K]
                      (set_time_sec_tot tot
                         (extend_logged_keys [LR K; MODE K; ITER K; EPOCH K] (self w)));
            sys := sys w |} /\
    line = prefix +:+ lr_str +:+ ", " +:+
           ETA K +:+ ": " +:+ eta_str +:+ ", " +:+
           ITER_TIME K +:+ ": " +:+ it_str +:+ ", " +:+
           DATA_LOAD_TIME K +:+ ": " +:+ dl_str +:+ ", " +:+
           join ", " (log_items repr (_logged_keys (self w')) d).

(** Every run of [m], returning or raising, relates the state before to
    the state after by [R]. *)
Definition establishes {A : Type} (R : World -> World -> Prop) (m : M A) : Prop :=
  forall w w' r, m w = (w', r) -> R w w'.

(** The marked keys only grow. *)
Definition grows (w w' : World) : Prop :=
  exists ks, _logged_keys (self w') = _logged_keys (self w) ++ ks.

(** Nothing outside the hook changes. *)
Definition same_sys (w w' : World) : Prop := sys w' = sys w.

(** Only the accumulator and the marked keys of the hook change. *)
Definition same_config (w w' : World) : Prop :=
  by_epoch (self w') = by_epoch (self w) /\
  interval (self w') = interval (self w) /\
  out_dir (self w') = out_dir (self w) /\
  start_iter (self w') = start_iter (self w) /\
  json_log_path (self w') = json_log_path (self w).

(** [mode == ModeKeys.TRAIN], as a test. *)
Definition train_mode (K : LogKeys) (d : dict) : bool :=
  match dict_get d (MODE K) with
  | Some (VStr m) => String.eqb m (TRAIN K)
  | _ => false
  end.

(** The keys a tick consumes into the prefix, the learning-rate and the
    timing segments, in the order [_log_info] marks them: in training
    mode the learning rate, the mode, the iteration and the epoch, then
    the two times when the iteration time is there; otherwise the mode,
    the iteration and the epoch. *)
Definition consumed_keys (K : LogKeys) (d : dict) : list string :=
  if train_mode K d then
    [LR K; MODE K; ITER K; EPOCH K] ++
    (if dict_mem (ITER_TIME K) d then [ITER_TIME K; DATA_LOAD_TIME K] else [])
  else [MODE K; ITER K; EPOCH K].


(** The accumulator is as it was. *)
Definition same_tot (w w' : World) : Prop :=
  time_sec_tot (self w') = time_sec_tot (self w).

(** [before_run] has set the attributes the ticks read. *)
Definition initialised (w : World) : Prop :=
  is_Some (start_iter (self w)) /\ is_Some (json_log_path (self w)).

(** The exception is an [AttributeError]. *)
Definition is_attribute_error (e : exn) : bool :=
  match e with
  | AttributeError _ => true
  | _ => false
  end.

(** The snapshot [log] builds: its own entries, then the buffer of the
    trainer merged in. *)
Definition snapshot_of (K : LogKeys) (nondst : nat -> list Z -> Z) (p : Process)
    (tr : Trainer) (epoch cur_iter : value) : dict :=
  dict_merge (base_snapshot K nondst p tr epoch cur_iter) (log_buffer_output tr).

End Spec.

(** ** Concrete runs *)

Module Sample.
Import PyFloat PyVal Env Hook.

(** A stand-in for the interpreter's [repr]; the samples convert no float
    and no container with [str]. *)
Definition repr0 : value -> string := fun _ => "<repr>".

Definition get_epoch0 : Trainer -> result value := fun _ => Ok (VInt 4).

Definition get_iter0 : TextLoggerHook -> Trainer -> bool -> result value :=
  fun _ _ _ => Ok (VInt 100).

(** An epoch-based trainer at iteration 99 of 1000, with metadata. *)
Definition trainer0 : Trainer := {|
  mode := "train";
  iter := 99;
  max_iters := 1000;
  iters_per_epoch := 1000;
  work_dir := "work";
  timestamp := "20230101_000000";
  meta := Some (Some [("seed", VInt 42); ("base_lr", VFloat (dec 123456789 (-9)))]);
  log_buffer_output :=
    [("lr", VFloat (dec 1 (-3)));
     ("iter_time", VFloat (dec 5 (-1)));
     ("data_load_time", VFloat (dec 1 (-1)));
     ("loss", VFloat (dec 123456 (-6)))]
|}.

(** The same trainer in an evaluation tick whose buffer still carries
    the learning rate. *)
Definition trainer_eval : Trainer := {|
  mode := "eval";
  iter := 99;
  max_iters := 1000;
  iters_per_epoch := 1000;
  work_dir := "work";
  timestamp := "20230101_000000";
  meta := None;
  log_buffer_output :=
    [("lr", VFloat (dec 1 (-3))); ("accuracy", VFloat (dec 987654 (-6)))]
|}.

(** Rank 0 and rank 1 of a run of two processes holding 300 MB and
    100 MB. *)
Definition master : Process :=
  {| rank := 0; readings := [314572800; 104857600]; cuda_is_available := true |}.


Definition empty_system : System := {| sink := []; dirs := ∅; files := ∅ |}.

(** A hook as constructed, and as [before_run] leaves it. *)
Definition fresh : World :=
  {| self := __init__ true 10 None; sys := empty_system |}.

Definition started : World := fst (before_run master trainer0 fresh).

(** One tick of the hook on the process [p]. *)
Definition tick (p : Process) (trainer : Trainer) : M dict :=
  log default_keys repr0 keep_local get_epoch0 get_iter0 p trainer.

(** A training snapshot with both timing keys. *)
Definition train_full : dict :=
  [("mode", VStr "train"); ("epoch", VInt 4); ("iter", VInt 100);
   ("lr", VFloat (dec 1 (-3)));
   ("iter_time", VFloat (dec 5 (-1)));
   ("data_load_time", VFloat (dec 1 (-1)));
   ("loss", VFloat (dec 123456 (-6)))].

(** The same without the data-load time. *)
Definition train_no_data_load : dict :=
  [("mode", VStr "train"); ("epoch", VInt 4); ("iter", VInt 100);
   ("lr", VFloat (dec 1 (-3)));
   ("iter_time", VFloat (dec 5 (-1)));
   ("loss", VFloat (dec 123456 (-6)))].

(** The same without the iteration time. *)
Definition train_no_iter_time : dict :=
  [("mode", VStr "train"); ("epoch", VInt 4); ("iter", VInt 100);
   ("lr", VFloat (dec 1 (-3)));
   ("data_load_time", VFloat (dec 1 (-1)));
   ("loss", VFloat (dec 123456 (-6)))].

(** A training snapshot with two parameter groups. *)
Definition train_groups : dict :=
  [("mode", VStr "train"); ("epoch", VInt 4); ("iter", VInt 100);
   ("lr", VDict [("backbone", VFloat (dec 1 (-3))); ("head", VFloat (dec 25 (-3)))]);
   ("loss", VFloat (dec 123456 (-6)))].

(** An evaluation snapshot that carries a learning rate. *)
Definition eval_with_lr : dict :=
  [("mode", VStr "eval"); ("epoch", VInt 4); ("iter", VInt 100);
   ("lr", VFloat (dec 1 (-3)));
   ("accuracy", VFloat (dec 987654 (-6)))].

(** A snapshot with floats at the top, in nested lists and in a nested
    mapping. *)
Definition nested : dict :=
  [("mode", VStr "train");
   ("loss", VFloat (dec 123456789 (-9)));
   ("hist", VList [VFloat (dec 123456789 (-9)); VList [VFloat (dec 2718281828 (-9)); VInt 7]]);
   ("lr", VDict [("backbone", VFloat (dec 123456789 (-9)))])].

(** A training tick whose buffer lacks the data-load time. *)
Definition trainer_no_data_load : Trainer := {|
  mode := "train";
  iter := 99;
  max_iters := 1000;
  iters_per_epoch := 1000;
  work_dir := "work";
  timestamp := "20230101_000000";
  meta := None;
  log_buffer_output :=
    [("lr", VFloat (dec 1 (-3))); ("iter_time", VFloat (dec 5 (-1)))]
|}.

(** The last training tick of the run, at iteration 999 of 1000. *)
Definition trainer_last : Trainer := {|
  mode := "train";
  iter := 999;
  max_iters := 1000;
  iters_per_epoch := 1000;
  work_dir := "work";
  timestamp := "20230101_000000";
  meta := None;
  log_buffer_output :=
    [("lr", VFloat (dec 1 (-3)));
     ("iter_time", VFloat (dec 5 (-1)));
     ("data_load_time", VFloat (dec 1 (-1)))]
|}.


End Sample.

(** ** Checks of the number layer *)

Example fmt_e_milli : PyFloat.fmt_e 3 (PyFloat.dec 1 (-3)) = "1.000e-03".
Proof. vm_compute. reflexivity. Qed.

Example fmt_e_carry : PyFloat.fmt_e 3 (PyFloat.dec 99996 (-1)) = "1.000e+04".
Proof. vm_compute. reflexivity. Qed.

Example fmt_f_tie_to_even : PyFloat.fmt_f 2 (PyFloat.dec 125 (-3)) = "0.12".
Proof. vm_compute. reflexivity. Qed.

Example fmt_f_negative_zero : PyFloat.fmt_f 3 (PyFloat.dec (-1) (-4)) = "-0.000".
Proof. vm_compute. reflexivity. Qed.

Example round_nd_five : PyFloat.round_nd 5 (PyFloat.dec 123456789 (-9)) = PyFloat.dec 12346 (-5).
Proof. vm_compute. reflexivity. Qed.

Example truediv_ints :
  PyVal.py_truediv (PyVal.NInt 1) (PyVal.NInt 3) =
  PyVal.Ok (PyVal.NFloat (S754_finite false 6004799503160661 (-54))).
Proof. vm_compute. reflexivity. Qed.

Example truediv_by_zero :
  PyVal.py_truediv (PyVal.NFloat (PyFloat.dec 5 0)) (PyVal.NInt 0) =
  PyVal.Raise PyVal.ZeroDivisionError.
Proof. vm_compute. reflexivity. Qed.

Example timedelta_below_a_day : PyVal.timedelta_str 4500 = PyVal.Ok "1:15:00".
Proof. vm_compute. reflexivity. Qed.

Example timedelta_one_day : PyVal.timedelta_str 90061 = PyVal.Ok "1 day, 1:01:01".
Proof. vm_compute. reflexivity. Qed.

Example timedelta_days : PyVal.timedelta_str 200000 = PyVal.Ok "2 days, 7:33:20".
Proof. vm_compute. reflexivity. Qed.

Example timedelta_negative : PyVal.timedelta_str (-1) = PyVal.Ok "-1 day, 23:59:59".
Proof. vm_compute. reflexivity. Qed.

Example osp_join_trailing_sep : Env.osp_join "logs/" "run.log.json" = "logs/run.log.json".
Proof. reflexivity. Qed.

(** The prefixes of the two display conventions. *)
Example train_prefix_by_epoch :
  Hook.train_prefix Env.default_keys Sample.repr0 true Sample.train_full Sample.trainer0 =
  PyVal.Ok ("epoch [4][100/1000]" +:+ Hook.tab).
Proof. vm_compute. reflexivity. Qed.

Example eval_prefix_by_iter :
  Hook.eval_prefix Env.default_keys Sample.repr0 false (PyVal.VStr "val")
    [("mode", PyVal.VStr "val"); ("iter", PyVal.VInt 50)] =
  PyVal.Ok ("iter(val) [50]" +:+ Hook.tab).
Proof. vm_compute. reflexivity. Qed.

(** [before_run] on rank 0 of the sample run: the path of the log file, and
    the metadata, rounded, as its only record. *)
Example before_run_sample :
  Hook.json_log_path (Hook.self Sample.started) = Some "work/20230101_000000.log.json" /\
  Env.files (Hook.sys Sample.started) !! "work/20230101_000000.log.json" =
    Some [[("seed", PyVal.VInt 42); ("base_lr", PyVal.VFloat (PyFloat.dec 12346 (-5)))]] /\
  Env.sink (Hook.sys Sample.started) = ["Text logs will be saved to work"].
Proof. repeat split; vm_compute; reflexivity. Qed.

(** ** Running a method: inversion of successful runs *)

Section Monad.
Import PyVal Hook.
Context {A B : Type}.

Lemma bind_Ok_inv (m : M A) (k : A -> M B) (w w' : World) (b : B) :
  bind m k w = (w', Ok b) ->
  exists w1 a, m w = (w1, Ok a) /\ k a w1 = (w', Ok b).
Proof.
  unfold bind. destruct (m w) as [w1 [a | e]]; intros H.
  - exists w1, a. split; [reflexivity | exact H].
  - discriminate H.
Qed.

Lemma lift_Ok_inv (r : result A) (w w' : World) (a : A) :
  lift r w = (w', Ok a) -> w' = w /\ r = Ok a.
Proof. unfold lift. intros H. injection H as <- ->. split; reflexivity. Qed.

Lemma ret_Ok_inv (x : A) (w w' : World) (a : A) :
  ret x w = (w', Ok a) -> w' = w /\ a = x.
Proof. unfold ret. intros H. injection H as <- <-. split; reflexivity. Qed.

Lemma attr_Ok_inv (name : string) (o : option A) (w w' : World) (a : A) :
  attr name o w = (w', Ok a) -> w' = w /\ o = Some a.
Proof.
  destruct o as [x |]; cbn; intros H.
  - injection H as <- <-. split; reflexivity.
  - discriminate H.
Qed.
End Monad.

Import PyFloat PyVal Env Hook Spec.

Lemma get_self_inv (w w' : World) (h : TextLoggerHook) :
  get_self w = (w', Ok h) -> w' = w /\ h = self w.
Proof. unfold get_self. intros H. injection H as <- <-. split; reflexivity. Qed.

Lemma get_sys_inv (w w' : World) (s : System) :
  get_sys w = (w', Ok s) -> w' = w /\ s = sys w.
Proof. unfold get_sys. intros H. injection H as <- <-. split; reflexivity. Qed.

Lemma modify_self_inv (f : TextLoggerHook -> TextLoggerHook) (w w' : World) (u : unit) :
  modify_self f w = (w', Ok u) -> w' = {| self := f (self w); sys := sys w |}.
Proof. unfold modify_self. intros H. injection H as <-. reflexivity. Qed.

Lemma modify_sys_inv (f : System -> System) (w w' : World) (u : unit) :
  modify_sys f w = (w', Ok u) -> w' = {| self := self w; sys := f (sys w) |}.
Proof. unfold modify_sys. intros H. injection H as <-. reflexivity. Qed.

(** Peels the successful run in [H] apart, bind by bind. *)
Ltac run_inv H :=
  repeat
    (let w1 := fresh "w" in
     let a := fresh "x" in
     let H1 := fresh "Hrun" in
     first
       [ apply bind_Ok_inv in H; destruct H as (w1 & a & H1 & H);
         first
           [ apply lift_Ok_inv in H1; destruct H1 as [-> H1]
           | apply get_self_inv in H1; destruct H1 as [-> ->]
           | apply get_sys_inv in H1; destruct H1 as [-> ->]
           | apply modify_self_inv in H1; subst w1
           | apply modify_sys_inv in H1; subst w1
           | apply attr_Ok_inv in H1; destruct H1 as [-> H1]
           | idtac ]
       | apply ret_Ok_inv in H; destruct H as [-> ->] ]);
  repeat
    match goal with
    | E : Ok _ = Ok _ |- _ => injection E as E; try subst
    end.

Lemma getitem_Ok (d : dict) (k : string) (v : value) :
  getitem d k = Ok v <-> dict_get d k = Some v.
Proof.
  unfold getitem. destruct (dict_get d k) as [x |].
  - split; intros H; injection H as ->; reflexivity.
  - split; discriminate.
Qed.

Lemma dict_mem_get (d : dict) (k : string) :
  dict_mem k d = true <-> exists v, dict_get d k = Some v.
Proof.
  unfold dict_mem, keys. induction d as [| [k' v'] d IH]; cbn.
  - split; [discriminate | intros [v H]; discriminate].
  - destruct (String.eqb k k'); cbn.
    + split; [eauto | reflexivity].
    + exact IH.
Qed.

Lemma dict_mem_false (d : dict) (k : string) :
  dict_mem k d = false <-> dict_get d k = None.
Proof.
  destruct (dict_mem k d) eqn:Hm.
  - apply dict_mem_get in Hm as [v Hv]. rewrite Hv. split; discriminate.
  - split; [intros _ | reflexivity].
    destruct (dict_get d k) as [v |] eqn:Hg; [| reflexivity].
    assert (dict_mem k d = true) by (apply dict_mem_get; eauto). congruence.
Qed.

Lemma str_app_assoc (a b c : string) : (a +:+ b) +:+ c = a +:+ b +:+ c.
Proof.
  induction a as [| ch a IH]; [reflexivity |].
  change (String ch ((a +:+ b) +:+ c) = String ch (a +:+ b +:+ c)).
  rewrite IH. reflexivity.
Qed.

(** ** The trailing segment *)

Lemma logged_In (k : string) (logged_keys : list string) :
  logged k logged_keys = true <-> In k logged_keys.
Proof.
  unfold logged. rewrite existsb_exists. split.
  - intros (x & Hx & E). apply String.eqb_eq in E. subst x. exact Hx.
  - intros H. exists k. split; [exact H | apply String.eqb_refl].
Qed.

Lemma log_items_unlogged (repr : value -> string) (logged_keys : list string) (d : dict) :
  log_items repr logged_keys d =
  map (fun kv => log_item repr (fst kv) (snd kv)) (unlogged logged_keys d).
Proof.
  unfold unlogged. induction d as [| [name val] d IH]; cbn; [reflexivity |].
  destruct (logged name logged_keys); cbn; rewrite IH; reflexivity.
Qed.

Lemma unlogged_not_logged (logged_keys : list string) (d : dict) (k : string) :
  In k logged_keys -> ~ In k (keys (unlogged logged_keys d)).
Proof.
  intros Hk Hin. unfold keys, unlogged in Hin.
  apply in_map_iff in Hin as ([name val] & <- & Hf).
  apply filter_In in Hf as [_ Hf]. cbn in *.
  apply logged_In in Hk. rewrite Hk in Hf. discriminate Hf.
Qed.

Lemma is_train_train_mode (K : LogKeys) (d : dict) :
  is_train K d <-> train_mode K d = true.
Proof.
  unfold is_train, train_mode. split.
  - intros ->. apply String.eqb_refl.
  - destruct (dict_get d (MODE K)) as [[| | | | m | |] |]; try discriminate.
    intros E. apply String.eqb_eq in E. subst m. reflexivity.
Qed.

(** ** Rendering, step by step *)

Section Rendering.
Variable K : LogKeys.
Variable repr : value -> string.

(** The effect of a successful run of the timing branch. *)
Lemma timing_segments_Ok (d : dict) (tr : Trainer) (w w' : World) (s : string) :
  timing_segments K d tr w = (w', Ok s) ->
  exists iter_time n inc tot start avg eta seconds eta_str it_str dl dl_str,
    dict_get d (ITER_TIME K) = Some iter_time /\
    as_num iter_time = Some n /\
    py_mul n (NInt (interval (self w))) = Ok inc /\
    py_add (time_sec_tot (self w)) inc = Ok tot /\
    start_iter (self w) = Some start /\
    py_truediv tot (NInt (iter tr - start + 1)) = Ok avg /\
    py_mul avg (NInt (max_iters tr - iter tr - 1)) = Ok eta /\
    py_int eta = Ok seconds /\
    timedelta_str seconds = Ok eta_str /\
    format_3f iter_time = Ok it_str /\
    dict_get d (DATA_LOAD_TIME K) = Some dl /\
    format_3f dl = Ok dl_str /\
    w' = {| self := extend_logged_keys [ITER_TIME K; DATA_LOAD_TIME K]
                      (set_time_sec_tot tot (self w));
            sys := sys w |} /\
    s = ETA K +:+ ": " +:+ eta_str +:+ ", " +:+
        ITER_TIME K +:+ ": " +:+ it_str +:+ ", " +:+
        DATA_LOAD_TIME K +:+ ": " +:+ dl_str +:+ ", ".
Proof.
  intros H. unfold timing_segments in H. run_inv H.
  rewrite getitem_Ok in *.
  match goal with
  | E : times_interval ?v _ = Ok _ |- _ =>
      unfold times_interval in E; destruct (as_num v) as [n |] eqn:Hn; [| discriminate E]
  end.
  do 12 eexists. repeat (split; [eassumption || reflexivity |]).
  split; reflexivity.
Qed.

(** The converse: the steps of the timing branch, each succeeding, make
    the branch succeed. *)
Lemma timing_segments_intro (d : dict) (tr : Trainer) (w : World)
    iter_time n inc tot start avg eta seconds eta_str it_str dl dl_str :
  dict_get d (ITER_TIME K) = Some iter_time ->
  as_num iter_time = Some n ->
  py_mul n (NInt (interval (self w))) = Ok inc ->
  py_add (time_sec_tot (self w)) inc = Ok tot ->
  start_iter (self w) = Some start ->
  py_truediv tot (NInt (iter tr - start + 1)) = Ok avg ->
  py_mul avg (NInt (max_iters tr - iter tr - 1)) = Ok eta ->
  py_int eta = Ok seconds ->
  timedelta_str seconds = Ok eta_str ->
  format_3f iter_time = Ok it_str ->
  dict_get d (DATA_LOAD_TIME K) = Some dl ->
  format_3f dl = Ok dl_str ->
  timing_segments K d tr w =
    ({| self := extend_logged_keys [ITER_TIME K; DATA_LOAD_TIME K]
                  (set_time_sec_tot tot (self w));
        sys := sys w |},
     Ok (ETA K +:+ ": " +:+ eta_str +:+ ", " +:+
         ITER_TIME K +:+ ": " +:+ it_str +:+ ", " +:+
         DATA_LOAD_TIME K +:+ ": " +:+ dl_str +:+ ", ")).
Proof.
  intros Hit Hn Hinc Htot Hstart Havg Heta Hsec Hstr Hfit Hdl Hfdl.
  unfold timing_segments, bind, lift, get_self, modify_self, attr, ret, getitem,
    times_interval.
  rewrite Hit, Hn, Hinc, Htot. cbn. rewrite Hstart. cbn.
  rewrite Havg, Heta, Hsec, Hstr, Hfit, Hdl, Hfdl. reflexivity.
Qed.

(** A training tick that renders: the learning-rate part, the prefix,
    the marking, the timing branch when the key is there, the trailing
    items. *)
Lemma render_text_train_Ok (d : dict) (tr : Trainer) (w w' : World) (line : string) :
  is_train K d ->
  render_text K repr d tr w = (w', Ok line) ->
  exists lr lr_str prefix timing,
    dict_get d (LR K) = Some lr /\
    lr_str_of K lr = Ok lr_str /\
    train_prefix K repr (by_epoch (self w)) d tr = Ok prefix /\
    (let w1 := {| self := extend_logged_keys [LR K; MODE K; ITER K; EPOCH K] (self w);
                  sys := sys w |} in
     if dict_mem (ITER_TIME K) d
     then timing_segments K d tr w1 = (w', Ok timing)
     else w' = w1 /\ timing = "") /\
    line = prefix +:+ lr_str +:+ ", " +:+ timing +:+
           join ", " (log_items repr (_logged_keys (self w')) d).
Proof.
  intros Ht H. unfold is_train in Ht. unfold render_text in H.
  apply bind_Ok_inv in H as (w1 & mode_val & Hmode & H).
  apply lift_Ok_inv in Hmode as [-> Hmode]. apply getitem_Ok in Hmode.
  rewrite Ht in Hmode. injection Hmode as <-.
  apply bind_Ok_inv in H as (w1 & h & Hh & H).
  apply get_self_inv in Hh as [-> ->].
  apply bind_Ok_inv in H as (w2 & log_str & Hbody & H).
  rewrite String.eqb_refl in Hbody.
  run_inv H.
  apply bind_Ok_inv in Hbody as (w1 & lr & Hlr & Hbody).
  apply lift_Ok_inv in Hlr as [-> Hlr]. apply getitem_Ok in Hlr.
  apply bind_Ok_inv in Hbody as (w1 & lr_str & Hstr & Hbody).
  apply lift_Ok_inv in Hstr as [-> Hstr].
  apply bind_Ok_inv in Hbody as (w1 & prefix & Hpre & Hbody).
  apply lift_Ok_inv in Hpre as [-> Hpre].
  apply bind_Ok_inv in Hbody as (w1 & u & Hmark & Hbody).
  apply modify_self_inv in Hmark. subst w1.
  exists lr, lr_str, prefix.
  destruct (dict_mem (ITER_TIME K) d) eqn:Hmem.
  - apply bind_Ok_inv in Hbody as (w1 & timing & Htim & Hbody).
    apply ret_Ok_inv in Hbody as [-> ->].
    exists timing. repeat (split; [assumption |]).
    rewrite !str_app_assoc. reflexivity.
  - apply ret_Ok_inv in Hbody as [-> ->].
    exists "". repeat (split; [assumption |]). split; [split; reflexivity |].
    rewrite !str_app_assoc. reflexivity.
Qed.

(** The loop over the groups: one item per group, in the order of the
    mapping. *)
Lemma lr_group_items_Ok (groups : dict) (items : list string) :
  lr_group_items K groups = Ok items ->
  length items = length groups /\
  forall (i : nat) (k : string) (v : value),
    groups !! i = Some (k, v) ->
    exists s, format_3e v = Ok s /\
              items !! i = Some (LR K +:+ "_" +:+ k +:+ ": " +:+ s).
Proof.
  revert items. induction groups as [| [k0 v0] groups IH]; intros items H; cbn in H.
  - injection H as <-. split; [reflexivity |]. intros i k v Hi. discriminate Hi.
  - destruct (format_3e v0) as [s0 |] eqn:Hs0; [| discriminate H]. cbn in H.
    destruct (lr_group_items K groups) as [rest |] eqn:Hrest; [| discriminate H].
    cbn in H. injection H as <-.
    destruct (IH rest eq_refl) as [Hlen Hitems]. split.
    + cbn. rewrite Hlen. reflexivity.
    + intros [| i] k v Hi; cbn in Hi.
      * injection Hi as <- <-. exists s0. split; [exact Hs0 | reflexivity].
      * exact (Hitems i k v Hi).
Qed.

(** A single learning rate that formats is a number. *)
Lemma format_with_Ok (fmt : float -> string) (v : value) (s : string) :
  format_with fmt v = Ok s ->
  exists n f, as_num v = Some n /\ to_float n = Ok f /\ s = fmt f.
Proof.
  unfold format_with. intros H.
  destruct v as [| b | z | f0 | s0 | l | g]; try discriminate H; cbn [as_num] in *;
    match type of H with
    | rbind (to_float ?n) _ = _ =>
        destruct (to_float n) as [f |] eqn:Hf; [| discriminate H];
        cbn in H; injection H as <-; exists n, f; repeat split; exact Hf
    end.
Qed.

(** A tick outside training that renders. *)
Lemma render_text_eval_Ok (d : dict) (tr : Trainer) (w w' : World) (line : string) :
  train_mode K d = false ->
  render_text K repr d tr w = (w', Ok line) ->
  exists mode_val prefix,
    dict_get d (MODE K) = Some mode_val /\
    eval_prefix K repr (by_epoch (self w)) mode_val d = Ok prefix /\
    w' = {| self := extend_logged_keys [MODE K; ITER K; EPOCH K] (self w);
            sys := sys w |} /\
    line = prefix +:+ join ", " (log_items repr (_logged_keys (self w')) d).
Proof.
  intros Hm H. unfold train_mode in Hm. unfold render_text in H.
  apply bind_Ok_inv in H as (w1 & mode_val & Hmode & H).
  apply lift_Ok_inv in Hmode as [-> Hmode]. apply getitem_Ok in Hmode.
  rewrite Hmode in Hm.
  apply bind_Ok_inv in H as (w1 & h & Hh & H).
  apply get_self_inv in Hh as [-> ->].
  apply bind_Ok_inv in H as (w2 & log_str & Hbody & H).
  run_inv H.
  exists mode_val.
  assert (Hbody' :
    (prefix <- lift (eval_prefix K repr (by_epoch (self w)) mode_val d) ;;
     modify_self (extend_logged_keys [MODE K; ITER K; EPOCH K]) ;;;
     ret prefix) w = (w2, Ok log_str)).
  { destruct mode_val as [| | | | m | |]; try exact Hbody.
    rewrite Hm in Hbody. exact Hbody. }
  clear Hbody. run_inv Hbody'.
  eexists. repeat (split; [eassumption || reflexivity |]). reflexivity.
Qed.

(** Every tick that renders marks the keys it consumed, after those
    marked before, and ends its line with the items left unmarked. *)
Lemma render_text_Ok_marked (d : dict) (tr : Trainer) (w w' : World) (line : string) :
  render_text K repr d tr w = (w', Ok line) ->
  _logged_keys (self w') = _logged_keys (self w) ++ consumed_keys K d /\
  exists head,
    line = head +:+ join ", " (log_items repr (_logged_keys (self w')) d).
Proof.
  intros H. unfold consumed_keys.
  destruct (train_mode K d) eqn:Hm.
  - apply is_train_train_mode in Hm.
    destruct (render_text_train_Ok d tr w w' line Hm H)
      as (lr & lr_str & prefix & timing & _ & _ & _ & Hbranch & Hline).
    cbv zeta in Hbranch. destruct (dict_mem (ITER_TIME K) d).
    + apply timing_segments_Ok in Hbranch.
      destruct Hbranch as (? & ? & ? & tot & ? & ? & ? & ? & ? & ? & ? & ? & Hrest).
      destruct Hrest as (_ & _ & _ & _ & _ & _ & _ & _ & _ & _ & _ & _ & Hw' & _).
      split.
      * subst w'. cbn. rewrite <- ?app_assoc. reflexivity.
      * exists (prefix +:+ lr_str +:+ ", " +:+ timing).
        rewrite Hline, !str_app_assoc. reflexivity.
    + destruct Hbranch as [Hw' ->]. split.
      * subst w'. cbn. rewrite ?app_nil_r. reflexivity.
      * exists (prefix +:+ lr_str +:+ ", ").
        rewrite Hline, !str_app_assoc. reflexivity.
  - destruct (render_text_eval_Ok d tr w w' line Hm H)
      as (mode_val & prefix & _ & _ & Hw' & Hline).
    split; [subst w'; reflexivity | exists prefix; exact Hline].
Qed.

(** With the iteration time there and the data-load time missing, the
    timing branch raises at the lookup, the accumulator already updated. *)
Lemma timing_segments_missing_data_load (d : dict) (tr : Trainer) (w : World)
    iter_time n inc tot start avg eta seconds eta_str it_str :
  dict_get d (ITER_TIME K) = Some iter_time ->
  as_num iter_time = Some n ->
  py_mul n (NInt (interval (self w))) = Ok inc ->
  py_add (time_sec_tot (self w)) inc = Ok tot ->
  start_iter (self w) = Some start ->
  py_truediv tot (NInt (iter tr - start + 1)) = Ok avg ->
  py_mul avg (NInt (max_iters tr - iter tr - 1)) = Ok eta ->
  py_int eta = Ok seconds ->
  timedelta_str seconds = Ok eta_str ->
  format_3f iter_time = Ok it_str ->
  dict_get d (DATA_LOAD_TIME K) = None ->
  timing_segments K d tr w =
    ({| self := set_time_sec_tot tot (self w); sys := sys w |},
     Raise (KeyError (DATA_LOAD_TIME K))).
Proof.
  intros Hit Hn Hinc Htot Hstart Havg Heta Hsec Hstr Hfit Hdl.
  unfold timing_segments, bind, lift, get_self, modify_self, attr, ret, getitem,
    times_interval.
  rewrite Hit, Hn, Hinc, Htot. cbn. rewrite Hstart. cbn.
  rewrite Havg, Heta, Hsec, Hstr, Hfit, Hdl. reflexivity.
Qed.

(** A training tick whose timing branch raises, raises. *)
Lemma render_text_train_timing_raise (d : dict) (tr : Trainer) (w w' : World)
    (lr : value) (lr_str prefix : string) (e : exn) :
  is_train K d ->
  dict_mem (ITER_TIME K) d = true ->
  dict_get d (LR K) = Some lr ->
  lr_str_of K lr = Ok lr_str ->
  train_prefix K repr (by_epoch (self w)) d tr = Ok prefix ->
  timing_segments K d tr
    {| self := extend_logged_keys [LR K; MODE K; ITER K; EPOCH K] (self w);
       sys := sys w |} = (w', Raise e) ->
  render_text K repr d tr w = (w', Raise e).
Proof.
  intros Ht Hmem Hlr Hstr Hpre Htim. unfold is_train in Ht.
  unfold render_text, bind, lift, get_self, modify_self, ret, getitem.
  rewrite Ht, String.eqb_refl, Hlr, Hstr, Hpre, Hmem, Htim. reflexivity.
Qed.

(** The converse for a training tick with the timing key. *)
Lemma render_text_train_timing_intro (d : dict) (tr : Trainer) (w w' : World)
    (lr : value) (lr_str prefix timing : string) :
  is_train K d ->
  dict_mem (ITER_TIME K) d = true ->
  dict_get d (LR K) = Some lr ->
  lr_str_of K lr = Ok lr_str ->
  train_prefix K repr (by_epoch (self w)) d tr = Ok prefix ->
  timing_segments K d tr
    {| self := extend_logged_keys [LR K; MODE K; ITER K; EPOCH K] (self w);
       sys := sys w |} = (w', Ok timing) ->
  render_text K repr d tr w =
    (w', Ok (prefix +:+ lr_str +:+ ", " +:+ timing +:+
             join ", " (log_items repr (_logged_keys (self w')) d))).
Proof.
  intros Ht Hmem Hlr Hstr Hpre Htim. unfold is_train in Ht.
  unfold render_text, bind, lift, get_self, modify_self, ret, getitem.
  rewrite Ht, String.eqb_refl, Hlr, Hstr, Hpre, Hmem, Htim.
  rewrite !str_app_assoc. reflexivity.
Qed.

(** A training tick without the iteration time renders as soon as the
    learning rate formats and the prefix is there. *)
Lemma render_text_train_plain_intro (d : dict) (tr : Trainer) (w : World)
    (lr : value) (lr_str prefix : string) :
  is_train K d ->
  dict_mem (ITER_TIME K) d = false ->
  dict_get d (LR K) = Some lr ->
  lr_str_of K lr = Ok lr_str ->
  train_prefix K repr (by_epoch (self w)) d tr = Ok prefix ->
  render_text K repr d tr w =
    ({| self := extend_logged_keys [LR K; MODE K; ITER K; EPOCH K] (self w);
        sys := sys w |},
     Ok (prefix +:+ lr_str +:+ ", " +:+
         join ", " (log_items repr (_logged_keys (self w) ++ [LR K; MODE K; ITER K; EPOCH K])
                      d))).
Proof.
  intros Ht Hmem Hlr Hstr Hpre. unfold is_train in Ht.
  unfold render_text, bind, lift, get_self, modify_self, ret, getitem.
  rewrite Ht, String.eqb_refl, Hlr, Hstr, Hpre, Hmem.
  rewrite !str_app_assoc. reflexivity.
Qed.

(** A tick outside training renders as soon as the prefix is there. *)
Lemma render_text_eval_intro (d : dict) (tr : Trainer) (w : World)
    (mode_val : value) (prefix : string) :
  train_mode K d = false ->
  dict_get d (MODE K) = Some mode_val ->
  eval_prefix K repr (by_epoch (self w)) mode_val d = Ok prefix ->
  render_text K repr d tr w =
    ({| self := extend_logged_keys [MODE K; ITER K; EPOCH K] (self w); sys := sys w |},
     Ok (prefix +:+
         join ", " (log_items repr (_logged_keys (self w) ++ [MODE K; ITER K; EPOCH K]) d))).
Proof.
  intros Hm Hmode Hpre. unfold train_mode in Hm. rewrite Hmode in Hm.
  unfold render_text, bind, lift, get_self, modify_self, ret, getitem.
  rewrite Hmode.
  destruct mode_val as [| | | | m | |]; try (rewrite Hpre; reflexivity).
  rewrite Hm, Hpre. reflexivity.
Qed.

End Rendering.

(** [str(timedelta)]: hours, minutes and seconds alone below a day, a day
    count in front from a day on. *)
Lemma timedelta_str_shape (n : Z) (s : string) :
  timedelta_str n = Ok s ->
  (0 <= n < 86400 -> s = hms n) /\
  (86400 <= n ->
   s = str_Z (n / 86400) +:+ " day" +:+ (if n / 86400 =? 1 then "" else "s") +:+ ", " +:+
       hms (n mod 86400)).
Proof.
  unfold timedelta_str. destruct (999999999 <? Z.abs (n / 86400)); [discriminate |].
  intros H. injection H as <-. split; intros Hn.
  - rewrite Z.div_small, Z.mod_small by lia. reflexivity.
  - assert (1 <= n / 86400) by (apply Z.div_le_lower_bound; lia).
    destruct (n / 86400 =? 0) eqn:E; [lia |].
    rewrite Z.abs_eq by lia. reflexivity.
Qed.

(** ** What every run preserves *)

Section Frames.
Context {A B : Type}.
Variable R : World -> World -> Prop.
Context `{!Reflexive R, !Transitive R}.

Lemma establishes_bind (m : M A) (k : A -> M B) :
  establishes R m -> (forall a, establishes R (k a)) -> establishes R (bind m k).
Proof.
  intros Hm Hk w w' r. unfold bind.
  destruct (m w) as [w1 [a | e]] eqn:E; intros H.
  - transitivity w1; [exact (Hm _ _ _ E) | exact (Hk a _ _ _ H)].
  - injection H as <- <-. exact (Hm _ _ _ E).
Qed.

Lemma establishes_lift (r : result A) : establishes R (lift r).
Proof. intros w w' r' H. injection H as <- <-. reflexivity. Qed.

Lemma establishes_ret (a : A) : establishes R (ret a).
Proof. intros w w' r' H. injection H as <- <-. reflexivity. Qed.

Lemma establishes_attr (name : string) (o : option A) : establishes R (attr name o).
Proof. destruct o; [apply establishes_ret | apply establishes_lift]. Qed.

Lemma establishes_get_self : establishes R get_self.
Proof. intros w w' r' H. injection H as <- <-. reflexivity. Qed.

Lemma establishes_get_sys : establishes R get_sys.
Proof. intros w w' r' H. injection H as <- <-. reflexivity. Qed.

Lemma establishes_modify_self (f : TextLoggerHook -> TextLoggerHook) :
  (forall w, R w {| self := f (self w); sys := sys w |}) ->
  establishes R (modify_self f).
Proof. intros Hf w w' r' H. injection H as <- <-. apply Hf. Qed.

Lemma establishes_modify_sys (f : System -> System) :
  (forall w, R w {| self := self w; sys := f (sys w) |}) ->
  establishes R (modify_sys f).
Proof. intros Hf w w' r' H. injection H as <- <-. apply Hf. Qed.
End Frames.

#[local] Instance grows_refl : Reflexive grows.
Proof. intros w. exists []. rewrite app_nil_r. reflexivity. Qed.

#[local] Instance grows_trans : Transitive grows.
Proof.
  intros w1 w2 w3 [ks1 H1] [ks2 H2]. exists (ks1 ++ ks2).
  rewrite H2, H1, <- app_assoc. reflexivity.
Qed.

#[local] Instance same_sys_refl : Reflexive same_sys.
Proof. intros w. reflexivity. Qed.

#[local] Instance same_sys_trans : Transitive same_sys.
Proof. intros w1 w2 w3 H1 H2. unfold same_sys in *. congruence. Qed.

#[local] Instance same_config_refl : Reflexive same_config.
Proof. intros w. repeat split. Qed.

#[local] Instance same_config_trans : Transitive same_config.
Proof.
  intros w1 w2 w3 (? & ? & ? & ? & ?) (? & ? & ? & ? & ?).
  repeat split; congruence.
Qed.

(** Walks through a method, bind by bind and branch by branch. *)
Ltac frame_steps :=
  repeat
    first
      [ apply establishes_bind; try exact _; [| intros ?]
      | apply establishes_lift; exact _
      | apply establishes_ret; exact _
      | apply establishes_attr; exact _
      | apply establishes_get_self; exact _
      | apply establishes_get_sys; exact _
      | match goal with
        | |- establishes _ (if ?b then _ else _) => destruct b
        | |- establishes _ (match ?x with _ => _ end) => destruct x
        end ].

Section RenderingFrames.
Variable K : LogKeys.
Variable repr : value -> string.

Lemma render_text_grows (d : dict) (tr : Trainer) :
  establishes grows (render_text K repr d tr).
Proof.
  unfold render_text. frame_steps;
    apply establishes_modify_self; intros w;
    first [ exists []; cbn; rewrite app_nil_r; reflexivity | eexists; reflexivity ].
Qed.

Lemma render_text_same_sys (d : dict) (tr : Trainer) :
  establishes same_sys (render_text K repr d tr).
Proof.
  unfold render_text. frame_steps; apply establishes_modify_self; intros w; reflexivity.
Qed.

Lemma render_text_same_config (d : dict) (tr : Trainer) :
  establishes same_config (render_text K repr d tr).
Proof.
  unfold render_text. frame_steps; apply establishes_modify_self; intros w; repeat split.
Qed.
End RenderingFrames.

(** ** The statements *)

(** C3: a training tick whose snapshot has the iteration time renders a
    line exactly when every step below succeeds, and then: the accumulator
    has grown by [iter_time * interval]; the average is the accumulator
    divided by [iter - start_iter + 1]; the ETA is the average times
    [max_iters - iter - 1]; the line carries the duration string of
    [int(eta_sec)] (hours, minutes, seconds, with a day count from 24 hours
    on), then the iteration time and the data-load time, each with three
    decimals. *)
Theorem render_text_eta (K : LogKeys) (repr : value -> string)
    (d : dict) (tr : Trainer) (w w' : World) (line : string) :
  is_train K d ->
  dict_mem (ITER_TIME K) d = true ->
  render_text K repr d tr w = (w', Ok line) <-> eta_rendering K repr d tr w w' line.
Proof.
  intros Ht Hmem. split.
  - intros H.
    destruct (render_text_train_Ok K repr d tr w w' line Ht H)
      as (lr & lr_str & prefix & timing & Hlr & Hstr & Hpre & Hbranch & Hline).
    cbv zeta in Hbranch. rewrite Hmem in Hbranch.
    apply timing_segments_Ok in Hbranch
      as (iter_time & n & inc & tot & start & avg & eta & seconds & eta_str & it_str
          & dl & dl_str & Hit & Hn & Hinc & Htot & Hstart & Havg & Heta & Hsec & Hdur & Hfit
          & Hdl & Hfdl & Hw' & Htiming).
    cbn in Hinc, Htot, Hstart, Hw'.
    destruct (timedelta_str_shape seconds eta_str Hdur) as [Hshort Hlong].
    exists lr, lr_str, prefix, iter_time, n, inc, tot, start, avg, eta, seconds, eta_str,
      it_str, dl, dl_str.
    repeat (split; [first [assumption | subst w'; reflexivity] |]).
    subst line timing. rewrite !str_app_assoc. reflexivity.
  - intros (lr & lr_str & prefix & iter_time & n & inc & tot & start & avg & eta & seconds
            & eta_str & it_str & dl & dl_str & Hlr & Hstr & Hpre & Hit & Hn & Hinc & Htot
            & _ & Hstart & Havg & Heta & Hsec & Hdur & _ & _ & Hfit & Hdl & Hfdl & Hw' & Hline).
    rewrite (render_text_train_timing_intro K repr d tr w w' lr lr_str prefix
               (ETA K +:+ ": " +:+ eta_str +:+ ", " +:+
                ITER_TIME K +:+ ": " +:+ it_str +:+ ", " +:+
                DATA_LOAD_TIME K +:+ ": " +:+ dl_str +:+ ", ") Ht Hmem Hlr Hstr Hpre).
    + subst line. rewrite !str_app_assoc. reflexivity.
    + subst w'.
      exact (timing_segments_intro K d tr
               {| self := extend_logged_keys [LR K; MODE K; ITER K; EPOCH K] (self w);
                  sys := sys w |}
               iter_time n inc tot start avg eta seconds eta_str it_str dl dl_str
               Hit Hn Hinc Htot Hstart Havg Heta Hsec Hdur Hfit Hdl Hfdl).
Qed.

(** The sample training tick: 0.5 s per iteration over an interval of 10
    leaves 5.0 in the accumulator and 900 iterations to go, 1:15:00. *)
Lemma render_text_eta_witness :
  eta_rendering default_keys Sample.repr0 Sample.train_full Sample.trainer0
    Sample.started
    {| self :=
         extend_logged_keys ["iter_time"; "data_load_time"]
           (set_time_sec_tot (NFloat (dec 5 0))
              (extend_logged_keys ["lr"; "mode"; "iter"; "epoch"] (self Sample.started)));
       sys := sys Sample.started |}
    ("epoch [4][100/1000]" +:+ tab +:+
     "lr: 1.000e-03, eta: 1:15:00, iter_time: 0.500, data_load_time: 0.100, loss: 0.1235").
Proof.
  apply (proj1 (render_text_eta default_keys Sample.repr0 Sample.train_full
                  Sample.trainer0 Sample.started _ _ eq_refl eq_refl)).
  vm_compute. reflexivity.
Defined.

(** C8: in every tick that renders, the keys consumed into the prefix, the
    learning-rate and the timing segments are marked as logged during that
    tick, and the trailing segment, made of the items left unmarked, has no
    item under any of them. *)
Theorem consumed_keys_not_repeated (K : LogKeys) (repr : value -> string)
    (d : dict) (tr : Trainer) (w w' : World) (line : string) :
  render_text K repr d tr w = (w', Ok line) ->
  _logged_keys (self w') = _logged_keys (self w) ++ consumed_keys K d /\
  (exists head,
     line = head +:+
            join ", " (map (fun kv => log_item repr (fst kv) (snd kv))
                         (unlogged (_logged_keys (self w')) d))) /\
  (forall k, In k (consumed_keys K d) ->
     In k (_logged_keys (self w')) /\
     ~ In k (keys (unlogged (_logged_keys (self w')) d))).
Proof.
  intros H.
  destruct (render_text_Ok_marked K repr d tr w w' line H) as [Hmarked [head Hline]].
  split; [exact Hmarked |]. split.
  - exists head. rewrite <- log_items_unlogged. exact Hline.
  - intros k Hk.
    assert (Hin : In k (_logged_keys (self w')))
      by (rewrite Hmarked; apply in_or_app; right; exact Hk).
    split; [exact Hin | apply unlogged_not_logged; exact Hin].
Qed.

(** The sample training tick: the six keys are marked and only the loss is
    left for the trailing segment. *)
Lemma consumed_keys_not_repeated_witness :
  _logged_keys (self (fst (render_text default_keys Sample.repr0 Sample.train_full
                             Sample.trainer0 Sample.started))) =
    ["lr"; "mode"; "iter"; "epoch"; "iter_time"; "data_load_time"] /\
  keys (unlogged ["lr"; "mode"; "iter"; "epoch"; "iter_time"; "data_load_time"]
          Sample.train_full) = ["loss"].
Proof.
  pose proof (consumed_keys_not_repeated default_keys Sample.repr0 Sample.train_full
                Sample.trainer0 Sample.started
                (fst (render_text default_keys Sample.repr0 Sample.train_full
                        Sample.trainer0 Sample.started))
                ("epoch [4][100/1000]" +:+ tab +:+
                 "lr: 1.000e-03, eta: 1:15:00, iter_time: 0.500, data_load_time: 0.100, loss: 0.1235")
                ltac:(vm_compute; reflexivity)) as [Hmarked _].
  split; [exact Hmarked | reflexivity].
Defined.

(** C7: in a training tick that renders, a learning rate that is a mapping
    gives one item ["lr_<group>: <value>"] per group, in the order of the
    mapping, joined by single spaces; a single learning rate is a number and
    gives the one item ["lr: <value>"]; either way the value has three
    digits after the point in scientific notation, the part comes right
    after the prefix, and the trailing segment has no item under the
    learning-rate key. *)
Theorem render_text_lr (K : LogKeys) (repr : value -> string)
    (d : dict) (tr : Trainer) (w w' : World) (line : string) :
  is_train K d ->
  render_text K repr d tr w = (w', Ok line) ->
  exists lr prefix timing,
    dict_get d (LR K) = Some lr /\
    train_prefix K repr (by_epoch (self w)) d tr = Ok prefix /\
    ~ In (LR K) (keys (unlogged (_logged_keys (self w')) d)) /\
    match lr with
    | VDict groups =>
        exists items,
          length items = length groups /\
          (forall (i : nat) (k : string) (v : value),
             groups !! i = Some (k, v) ->
             exists s, format_3e v = Ok s /\
                       items !! i = Some (LR K +:+ "_" +:+ k +:+ ": " +:+ s)) /\
          line = prefix +:+ join " " items +:+ ", " +:+ timing +:+
                 join ", " (map (fun kv => log_item repr (fst kv) (snd kv))
                              (unlogged (_logged_keys (self w')) d))
    | _ =>
        exists n f,
          as_num lr = Some n /\
          to_float n = Ok f /\
          line = prefix +:+ (LR K +:+ ": " +:+ fmt_e 3 f) +:+ ", " +:+ timing +:+
                 join ", " (map (fun kv => log_item repr (fst kv) (snd kv))
                              (unlogged (_logged_keys (self w')) d))
    end.
Proof.
  intros Ht H.
  destruct (render_text_Ok_marked K repr d tr w w' line H) as [Hmarked _].
  destruct (render_text_train_Ok K repr d tr w w' line Ht H)
    as (lr & lr_str & prefix & timing & Hlr & Hstr & Hpre & _ & Hline).
  rewrite log_items_unlogged in Hline.
  exists lr, prefix, timing. repeat (split; [assumption |]). split.
  - apply unlogged_not_logged. rewrite Hmarked. apply in_or_app. right.
    unfold consumed_keys. apply is_train_train_mode in Ht. rewrite Ht. left. reflexivity.
  - assert (Hsingle : rbind (format_3e lr) (fun s => Ok (LR K +:+ ": " +:+ s)) = Ok lr_str ->
                      exists n f, as_num lr = Some n /\ to_float n = Ok f /\
                                  lr_str = LR K +:+ ": " +:+ fmt_e 3 f).
    { intros E. destruct (format_3e lr) as [s |] eqn:Hs; [| discriminate E].
      cbn in E. injection E as <-.
      destruct (format_with_Ok (fmt_e 3) lr s Hs) as (n & f & Hn & Hf & ->).
      exists n, f. repeat split; assumption. }
    destruct lr as [| b | z | f0 | s0 | l | groups];
      try (destruct (Hsingle Hstr) as (n & f & Hn & Hf & ->);
           exists n, f; repeat split; assumption).
    cbn in Hstr.
    destruct (lr_group_items K groups) as [items |] eqn:Hitems; [| discriminate Hstr].
    cbn in Hstr. injection Hstr as <-.
    destruct (lr_group_items_Ok K groups items Hitems) as [Hlen Hnth].
    exists items. repeat split; assumption.
Qed.

(** The sample tick with two parameter groups. *)
Lemma render_text_lr_witness :
  exists w',
    render_text default_keys Sample.repr0 Sample.train_groups Sample.trainer0
      Sample.started =
    (w', Ok ("epoch [4][100/1000]" +:+ tab +:+
             "lr_backbone: 1.000e-03 lr_head: 2.500e-02, loss: 0.1235")) /\
    ~ In "lr" (keys (unlogged (_logged_keys (self w')) Sample.train_groups)).
Proof.
  eexists. split; [vm_compute; reflexivity |].
  destruct (render_text_lr default_keys Sample.repr0 Sample.train_groups Sample.trainer0
              Sample.started _ _ eq_refl ltac:(vm_compute; reflexivity))
    as (lr & prefix & timing & _ & _ & Hno & _).
  exact Hno.
Defined.

(** C10, as the code has it: a training snapshot with the iteration time
    and without the data-load time never renders, because the data-load
    time is read whenever the iteration time is there; when the steps before
    that read succeed, the tick raises the missing-key error with the
    accumulator already updated. A training tick renders only when the
    iteration time is absent or both times are there. *)
Theorem timing_keys_needed (K : LogKeys) (repr : value -> string)
    (d : dict) (tr : Trainer) (w : World) :
  is_train K d ->
  (forall w' line,
     render_text K repr d tr w = (w', Ok line) ->
     dict_mem (ITER_TIME K) d = false \/
     (dict_mem (ITER_TIME K) d = true /\ dict_mem (DATA_LOAD_TIME K) d = true)) /\
  (dict_mem (ITER_TIME K) d = true ->
   dict_mem (DATA_LOAD_TIME K) d = false ->
   (exists w' e, render_text K repr d tr w = (w', Raise e)) /\
   (forall lr lr_str prefix iter_time n inc tot start avg eta seconds eta_str it_str,
      dict_get d (LR K) = Some lr ->
      lr_str_of K lr = Ok lr_str ->
      train_prefix K repr (by_epoch (self w)) d tr = Ok prefix ->
      dict_get d (ITER_TIME K) = Some iter_time ->
      as_num iter_time = Some n ->
      py_mul n (NInt (interval (self w))) = Ok inc ->
      py_add (time_sec_tot (self w)) inc = Ok tot ->
      start_iter (self w) = Some start ->
      py_truediv tot (NInt (iter tr - start + 1)) = Ok avg ->
      py_mul avg (NInt (max_iters tr - iter tr - 1)) = Ok eta ->
      py_int eta = Ok seconds ->
      timedelta_str seconds = Ok eta_str ->
      format_3f iter_time = Ok it_str ->
      render_text K repr d tr w =
        ({| self := set_time_sec_tot tot
                      (extend_logged_keys [LR K; MODE K; ITER K; EPOCH K] (self w));
            sys := sys w |},
         Raise (KeyError (DATA_LOAD_TIME K))))).
Proof.
  intros Ht.
  assert (Hok : forall w' line,
            render_text K repr d tr w = (w', Ok line) ->
            dict_mem (ITER_TIME K) d = false \/
            (dict_mem (ITER_TIME K) d = true /\ dict_mem (DATA_LOAD_TIME K) d = true)).
  { intros w' line H.
    destruct (dict_mem (ITER_TIME K) d) eqn:Hmem; [right | left; reflexivity].
    destruct (render_text_train_Ok K repr d tr w w' line Ht H)
      as (lr & lr_str & prefix & timing & _ & _ & _ & Hbranch & _).
    cbv zeta in Hbranch. rewrite Hmem in Hbranch.
    apply timing_segments_Ok in Hbranch.
    destruct Hbranch as (? & ? & ? & ? & ? & ? & ? & ? & ? & ? & dl & ? & Hsteps).
    destruct Hsteps as (_ & _ & _ & _ & _ & _ & _ & _ & _ & _ & Hdl & _).
    split; [reflexivity | apply dict_mem_get; exists dl; exact Hdl]. }
  split; [exact Hok |]. intros Hmem Hno. split.
  - destruct (render_text K repr d tr w) as [w' [line | e]] eqn:E.
    + destruct (Hok w' line eq_refl) as [Hf | [_ Hdl]]; congruence.
    + exists w', e. reflexivity.
  - intros lr lr_str prefix iter_time n inc tot start avg eta seconds eta_str it_str
      Hlr Hstr Hpre Hit Hn Hinc Htot Hstart Havg Heta Hsec Hdur Hfit.
    apply dict_mem_false in Hno.
    apply (render_text_train_timing_raise K repr d tr w _ lr lr_str prefix _
             Ht Hmem Hlr Hstr Hpre).
    exact (timing_segments_missing_data_load K d tr
             {| self := extend_logged_keys [LR K; MODE K; ITER K; EPOCH K] (self w);
                sys := sys w |}
             iter_time n inc tot start avg eta seconds eta_str it_str
             Hit Hn Hinc Htot Hstart Havg Heta Hsec Hdur Hfit Hno).
Qed.

(** The sample snapshot with the iteration time alone: the tick raises
    [KeyError] on the data-load time. *)
Lemma timing_keys_needed_witness :
  is_train default_keys Sample.train_no_data_load /\
  dict_mem "iter_time" Sample.train_no_data_load = true /\
  dict_mem "data_load_time" Sample.train_no_data_load = false /\
  render_text default_keys Sample.repr0 Sample.train_no_data_load Sample.trainer0
    Sample.started =
  ({| self := set_time_sec_tot (NFloat (dec 5 0))
                (extend_logged_keys ["lr"; "mode"; "iter"; "epoch"] (self Sample.started));
      sys := sys Sample.started |},
   Raise (KeyError "data_load_time")).
Proof.
  repeat (split; [reflexivity |]).
  destruct (timing_keys_needed default_keys Sample.repr0 Sample.train_no_data_load
              Sample.trainer0 Sample.started eq_refl) as [_ Hraise].
  destruct (Hraise eq_refl eq_refl) as [_ Hkey].
  apply (Hkey (VFloat (dec 1 (-3))) "lr: 1.000e-03" ("epoch [4][100/1000]" +:+ tab)
           (VFloat (dec 5 (-1))) (NFloat (dec 5 (-1))) (NFloat (dec 5 0)) (NFloat (dec 5 0))
           99 (NFloat (dec 5 0)) (NFloat (dec 45 2)) 4500 "1:15:00" "0.500");
    vm_compute; reflexivity.
Defined.

(** The claim C10 as stated fails: a training snapshot with the data-load
    time and without the iteration time renders, the data-load time among
    the trailing items. *)
Lemma render_text_data_load_alone :
  is_train default_keys Sample.train_no_iter_time /\
  dict_mem "iter_time" Sample.train_no_iter_time = false /\
  dict_mem "data_load_time" Sample.train_no_iter_time = true /\
  snd (render_text default_keys Sample.repr0 Sample.train_no_iter_time Sample.trainer0
         Sample.started) =
  Ok ("epoch [4][100/1000]" +:+ tab +:+ "lr: 1.000e-03, data_load_time: 0.1000, loss: 0.1235").
Proof. repeat split; vm_compute; reflexivity. Qed.

(** ** A whole tick *)

Section Tick.
Variable K : LogKeys.
Variable repr : value -> string.
Variable nondst : nat -> list Z -> Z.
Variable get_epoch : Trainer -> result value.
Variable get_iter : TextLoggerHook -> Trainer -> bool -> result value.
Variable p : Process.

(** [_log_info] is the rendering, then the line given to the logger on
    the single writer. *)
Lemma _log_info_run (d : dict) (tr : Trainer) (w : World) :
  _log_info K repr p d tr w =
  match render_text K repr d tr w with
  | (w1, Ok line) =>
      ((if is_master p then {| self := self w1; sys := emit line (sys w1) |} else w1),
       Ok tt)
  | (w1, Raise e) => (w1, Raise e)
  end.
Proof.
  unfold _log_info, bind. destruct (render_text K repr d tr w) as [w1 [line | e]];
    [| reflexivity].
  destruct (is_master p); reflexivity.
Qed.

(** [_dump_log] is the record appended to the log file on the single
    writer. *)
Lemma _dump_log_run (d : dict) (w : World) :
  _dump_log p d w =
  if is_master p then
    match json_log_path (self w) with
    | Some path =>
        ({| self := self w; sys := append_line path (json_log_of d) (sys w) |}, Ok tt)
    | None => (w, Raise (AttributeError "json_log_path"))
    end
  else (w, Ok tt).
Proof.
  unfold _dump_log. destruct (is_master p); [| reflexivity].
  unfold bind, get_self, attr. destruct (json_log_path (self w)); reflexivity.
Qed.

(** A tick that returns its snapshot: the snapshot was rendered, and on
    the single writer the line and the record were written. *)
Lemma log_Ok (tr : Trainer) (w w' : World) (snapshot : dict) :
  log K repr nondst get_epoch get_iter p tr w = (w', Ok snapshot) ->
  exists cur_iter epoch w1 line,
    get_iter (self w) tr true = Ok cur_iter /\
    get_epoch tr = Ok epoch /\
    snapshot = dict_merge (base_snapshot K nondst p tr epoch cur_iter)
                 (log_buffer_output tr) /\
    render_text K repr snapshot tr w = (w1, Ok line) /\
    self w' = self w1 /\
    if is_master p then
      exists path,
        json_log_path (self w) = Some path /\
        sys w' = append_line path (json_log_of snapshot) (emit line (sys w))
    else sys w' = sys w.
Proof.
  intros H. unfold log in H.
  apply bind_Ok_inv in H as (w0 & h & Hh & H). apply get_self_inv in Hh as [-> ->].
  apply bind_Ok_inv in H as (w0 & cur_iter & Hi & H). apply lift_Ok_inv in Hi as [-> Hi].
  apply bind_Ok_inv in H as (w0 & epoch & He & H). apply lift_Ok_inv in He as [-> He].
  cbv zeta in H.
  apply bind_Ok_inv in H as (w2 & u & Hinfo & H).
  apply bind_Ok_inv in H as (w3 & u' & Hdump & H).
  apply ret_Ok_inv in H as [-> ->].
  rewrite _log_info_run in Hinfo.
  destruct (render_text K repr _ tr w) as [w1 [line | e]] eqn:Hrender;
    [| discriminate Hinfo].
  injection Hinfo as <-.
  pose proof (render_text_same_sys K repr _ tr w w1 _ Hrender) as Hsys.
  pose proof (render_text_same_config K repr _ tr w w1 _ Hrender) as (_ & _ & _ & _ & Hpath).
  unfold same_sys in Hsys.
  rewrite _dump_log_run in Hdump.
  exists cur_iter, epoch, w1, line. repeat (split; [assumption || reflexivity |]).
  destruct (is_master p).
  - cbn in Hdump. rewrite Hpath in Hdump.
    destruct (json_log_path (self w)) as [path |]; [| discriminate Hdump].
    injection Hdump as <-. cbn. split; [reflexivity |].
    exists path. rewrite Hsys. split; reflexivity.
  - injection Hdump as <-. split; [reflexivity | exact Hsys].
Qed.

(** Whatever a tick does, the marked keys only grow. *)
Lemma log_grows (tr : Trainer) :
  establishes grows (log K repr nondst get_epoch get_iter p tr).
Proof.
  unfold log, _log_info, _dump_log, render_text. frame_steps;
    first
      [ apply establishes_modify_self; intros w;
        first [ exists []; cbn; rewrite app_nil_r; reflexivity | eexists; reflexivity ]
      | apply establishes_modify_sys; intros w; exists []; cbn; rewrite app_nil_r;
        reflexivity ].
Qed.


End Tick.



(** C2, as the code has it: the marked keys are empty in a hook just
    constructed and no tick resets them. Whatever a tick does, it leaves the
    keys marked before in place and appends to them; a tick that returns
    has appended the keys it consumed, and its trailing segment has no item
    under a key marked in that tick or in any tick before. *)
Theorem logged_keys_accumulate (K : LogKeys) (repr : value -> string)
    (nondst : nat -> list Z -> Z)
    (get_epoch : Trainer -> result value)
    (get_iter : TextLoggerHook -> Trainer -> bool -> result value)
    (p : Process) (tr : Trainer) (w w' : World) (r : result dict) :
  log K repr nondst get_epoch get_iter p tr w = (w', r) ->
  (forall by_epoch interval out_dir, _logged_keys (__init__ by_epoch interval out_dir) = []) /\
  (exists ks, _logged_keys (self w') = _logged_keys (self w) ++ ks) /\
  (forall snapshot, r = Ok snapshot ->
     _logged_keys (self w') = _logged_keys (self w) ++ consumed_keys K snapshot /\
     exists w1 line head,
       render_text K repr snapshot tr w = (w1, Ok line) /\
       line = head +:+
              join ", " (map (fun kv => log_item repr (fst kv) (snd kv))
                           (unlogged (_logged_keys (self w')) snapshot)) /\
       forall k, In k (_logged_keys (self w)) ->
                 ~ In k (keys (unlogged (_logged_keys (self w')) snapshot))).
Proof.
  intros H. split; [reflexivity |]. split.
  - exact (log_grows K repr nondst get_epoch get_iter p tr w w' r H).
  - intros snapshot ->.
    destruct (log_Ok K repr nondst get_epoch get_iter p tr w w' snapshot H)
      as (cur_iter & epoch & w1 & line & _ & _ & _ & Hrender & Hself & _).
    destruct (render_text_Ok_marked K repr snapshot tr w w1 line Hrender)
      as [Hmarked [head Hline]].
    rewrite Hself. split; [exact Hmarked |].
    exists w1, line, head. split; [exact Hrender |]. split.
    + rewrite <- log_items_unlogged. exact Hline.
    + intros k Hk. apply unlogged_not_logged. rewrite Hmarked.
      apply in_or_app. left. exact Hk.
Qed.

(** Two sample ticks on rank 0, a training tick and then an evaluation
    tick: the second starts from the six keys the first marked and leaves
    nine. *)
Lemma logged_keys_accumulate_witness :
  exists ks,
    _logged_keys
      (self (fst (Sample.tick Sample.master Sample.trainer_eval
                    (fst (Sample.tick Sample.master Sample.trainer0 Sample.started))))) =
    ["lr"; "mode"; "iter"; "epoch"; "iter_time"; "data_load_time"] ++ ks.
Proof.
  destruct (logged_keys_accumulate default_keys Sample.repr0 keep_local Sample.get_epoch0
              Sample.get_iter0 Sample.master Sample.trainer_eval
              (fst (Sample.tick Sample.master Sample.trainer0 Sample.started))
              (fst (Sample.tick Sample.master Sample.trainer_eval
                      (fst (Sample.tick Sample.master Sample.trainer0 Sample.started))))
              (snd (Sample.tick Sample.master Sample.trainer_eval
                      (fst (Sample.tick Sample.master Sample.trainer0 Sample.started))))
              (surjective_pairing _)) as (_ & Hgrow & _).
  exact Hgrow.
Defined.

(** The claim C2 as stated fails: after a training tick the marked keys
    are not empty, and the evaluation tick that follows renders no item for
    the learning rate of its snapshot, which the same tick renders when the
    marked keys are empty. *)
Lemma logged_keys_leak_between_ticks :
  let after_train := fst (Sample.tick Sample.master Sample.trainer0 Sample.started) in
  _logged_keys (self Sample.started) = [] /\
  _logged_keys (self after_train) =
    ["lr"; "mode"; "iter"; "epoch"; "iter_time"; "data_load_time"] /\
  last (sink (sys (fst (Sample.tick Sample.master Sample.trainer_eval after_train)))) =
    Some ("epoch(eval) [4][100]" +:+ tab +:+ "memory: 300, accuracy: 0.9877") /\
  last (sink (sys (fst (Sample.tick Sample.master Sample.trainer_eval Sample.started)))) =
    Some ("epoch(eval) [4][100]" +:+ tab +:+ "memory: 300, lr: 0.0010, accuracy: 0.9877").
Proof. repeat split; vm_compute; reflexivity. Qed.

(** ** The peak-memory query *)





Lemma dict_get_set_same (d : dict) (k : string) (v : value) :
  dict_get (dict_set d k v) k = Some v.
Proof.
  induction d as [| [k' v'] d IH]; cbn.
  - rewrite String.eqb_refl. reflexivity.
  - destruct (String.eqb k k') eqn:E; cbn; rewrite E; [reflexivity | exact IH].
Qed.




(** ** Rounding and the JSON record *)

Lemma dict_set_fresh (d : dict) (k : string) (v : value) :
  ~ In k (keys d) -> dict_set d k v = d ++ [(k, v)].
Proof.
  induction d as [| [k' v'] d IH]; cbn; intros Hk; [reflexivity |].
  destruct (String.eqb k k') eqn:E.
  - apply String.eqb_eq in E. subst k'. exfalso. apply Hk. left. reflexivity.
  - rewrite IH; [reflexivity |]. intros Hin. apply Hk. right. exact Hin.
Qed.

(** On a dict, whose keys occur once, the loop of [_dump_log] rounds the
    values item by item and keeps the items where they are. *)
Lemma json_log_of_map (d : dict) :
  List.NoDup (keys d) ->
  json_log_of d = map (fun kv => (fst kv, _round_float (snd kv) 5)) d.
Proof.
  unfold json_log_of.
  assert (Hgen : forall acc,
            List.NoDup (keys acc ++ keys d) ->
            fold_left (fun json_log kv => dict_set json_log (fst kv) (_round_float (snd kv) 5))
              d acc =
            acc ++ map (fun kv => (fst kv, _round_float (snd kv) 5)) d).
  { induction d as [| [k v] d IH]; intros acc Hnd; cbn.
    - rewrite app_nil_r. reflexivity.
    - cbn in Hnd. rewrite dict_set_fresh.
      + rewrite IH.
        * rewrite <- app_assoc. reflexivity.
        * unfold keys in *. rewrite map_app. cbn. rewrite <- app_assoc. exact Hnd.
      + apply NoDup_remove_2 in Hnd. intros Hin. apply Hnd.
        apply in_or_app. left. exact Hin. }
  intros Hnd. exact (Hgen [] Hnd).
Qed.

Lemma dict_get_map (f : value -> value) (d : dict) (k : string) :
  dict_get (map (fun kv => (fst kv, f (snd kv))) d) k = option_map f (dict_get d k).
Proof.
  induction d as [| [k' v'] d IH]; cbn; [reflexivity |].
  destruct (String.eqb k k'); [reflexivity | exact IH].
Qed.

(** Through lists alone, a float is reached rounded. *)
Lemma round_float_list_path_float (idxs : list nat) (v : value) (f : float) :
  get_path v (map Idx idxs) = Some (VFloat f) ->
  get_path (_round_float v 5) (map Idx idxs) = Some (VFloat (round_nd 5 f)).
Proof.
  revert v. induction idxs as [| i idxs IH]; intros v; cbn.
  - intros H. injection H as ->. reflexivity.
  - destruct v as [| | | | | l |]; try discriminate. cbn.
    rewrite nth_error_map. destruct (nth_error l i) as [x |]; [| discriminate].
    cbn. apply IH.
Qed.

(** Through lists alone, a value that is neither a float nor a list is
    reached unchanged. *)
Lemma round_float_list_path_other (idxs : list nat) (v x : value) :
  get_path v (map Idx idxs) = Some x ->
  is_float x = false -> is_list x = false ->
  get_path (_round_float v 5) (map Idx idxs) = Some x.
Proof.
  revert v. induction idxs as [| i idxs IH]; intros v; cbn.
  - intros H Hf Hl. injection H as ->. destruct x; try discriminate; reflexivity.
  - destruct v as [| | | | | l |]; try discriminate. cbn.
    rewrite nth_error_map. destruct (nth_error l i) as [y |]; [| discriminate].
    cbn. apply IH.
Qed.


(** A path that steps through a mapping reaches what it reached before. *)
Lemma round_float_key_path (path : list step) (v x : value) :
  get_path v path = Some x ->
  existsb is_key path = true ->
  get_path (_round_float v 5) path = Some x.
Proof.
  revert v. induction path as [| st path IH]; intros v; cbn; [discriminate |].
  destruct st as [i | k]; cbn.
  - destruct v as [| | | | | l |]; try discriminate. cbn.
    rewrite nth_error_map. destruct (nth_error l i) as [y |]; [| discriminate].
    cbn. apply IH.
  - destruct v as [| | | | | | d]; try discriminate. cbn. intros H _. exact H.
Qed.




Lemma json_log_of_get (d : dict) (k : string) (v : value) :
  List.NoDup (keys d) ->
  dict_get d k = Some v ->
  dict_get (json_log_of d) k = Some (_round_float v 5).
Proof.
  intros Hnd Hk. rewrite (json_log_of_map d Hnd).
  rewrite (dict_get_map (fun x => _round_float x 5)), Hk. reflexivity.
Qed.



(** C9: a value of the snapshot that is a mapping is written as it is, the
    floats inside it unrounded: [_round_float] returns a mapping unchanged,
    so whatever a path through a mapping reaches is the same in the record;
    what differs in the record is reached through lists alone and is a float
    or a list. *)
Theorem nested_mapping_not_rounded (d : dict) :
  List.NoDup (keys d) ->
  (forall m nd, _round_float (VDict m) nd = VDict m) /\
  (forall k m,
     dict_get d k = Some (VDict m) -> dict_get (json_log_of d) k = Some (VDict m)) /\
  (forall k v path x,
     dict_get d k = Some v ->
     get_path v path = Some x ->
     existsb is_key path = true ->
     exists v', dict_get (json_log_of d) k = Some v' /\ get_path v' path = Some x) /\
  (forall k v v' path x y,
     dict_get d k = Some v ->
     dict_get (json_log_of d) k = Some v' ->
     get_path v path = Some x ->
     get_path v' path = Some y ->
     x <> y ->
     existsb is_key path = false /\ (is_float x = true \/ is_list x = true)).
Proof.
  intros Hnd. split; [reflexivity |]. split; [| split].
  - intros k m Hk. exact (json_log_of_get d k (VDict m) Hnd Hk).
  - intros k v path x Hk Hp Hkey. exists (_round_float v 5).
    split; [exact (json_log_of_get d k v Hnd Hk) | exact (round_float_key_path path v x Hp Hkey)].
  - intros k v v' path x y Hk Hk' Hp Hp' Hxy.
    rewrite (json_log_of_get d k v Hnd Hk) in Hk'. injection Hk' as <-.
    destruct (existsb is_key path) eqn:Hkey.
    + rewrite (round_float_key_path path v x Hp Hkey) in Hp'. congruence.
    + split; [reflexivity |].
      assert (Hidx : exists idxs, path = map Idx idxs).
      { clear -Hkey. induction path as [| [i | k] path IH]; cbn in Hkey.
        - exists []. reflexivity.
        - destruct (IH Hkey) as [idxs ->]. exists (i :: idxs). reflexivity.
        - discriminate Hkey. }
      destruct Hidx as [idxs ->].
      destruct (is_float x) eqn:Hf; [left; reflexivity |].
      destruct (is_list x) eqn:Hl; [right; reflexivity |].
      rewrite (round_float_list_path_other idxs v x Hp Hf Hl) in Hp'. congruence.
Qed.

(** The sample snapshot with nested floats: the learning rate of the group,
    0.123456789, is written as it is, while the loss with the same value is
    written as 0.12346. *)
Lemma nested_mapping_not_rounded_witness :
  dict_get (json_log_of Sample.nested) "lr" =
    Some (VDict [("backbone", VFloat (dec 123456789 (-9)))]) /\
  dict_get (json_log_of Sample.nested) "loss" = Some (VFloat (dec 12346 (-5))).
Proof.
  destruct (nested_mapping_not_rounded Sample.nested
              ltac:(repeat constructor; cbn; intuition discriminate))
    as (_ & Hmap & _).
  split; [exact (Hmap "lr" [("backbone", VFloat (dec 123456789 (-9)))] eq_refl) |].
  vm_compute. reflexivity.
Defined.

(** ** Initialization *)




(** * Further properties of the hook *)

(** ** The outcomes of a tick *)

Section TickOutcomes.
Variable K : LogKeys.
Variable repr : value -> string.
Variable nondst : nat -> list Z -> Z.
Variable get_epoch : Trainer -> result value.
Variable get_iter : TextLoggerHook -> Trainer -> bool -> result value.
Variable p : Process.

(** [log], case by case: the base class raises; the rendering raises; the
    line is out and the path of the log file is not set; the tick returns. *)
Lemma log_run (tr : Trainer) (w : World) :
  log K repr nondst get_epoch get_iter p tr w =
  match get_iter (self w) tr true with
  | Raise e => (w, Raise e)
  | Ok cur_iter =>
      match get_epoch tr with
      | Raise e => (w, Raise e)
      | Ok epoch =>
          let snapshot := snapshot_of K nondst p tr epoch cur_iter in
          match render_text K repr snapshot tr w with
          | (w1, Raise e) => (w1, Raise e)
          | (w1, Ok line) =>
              if is_master p then
                match json_log_path (self w1) with
                | Some path =>
                    ({| self := self w1;
                        sys := append_line path (json_log_of snapshot) (emit line (sys w1)) |},
                     Ok snapshot)
                | None =>
                    ({| self := self w1; sys := emit line (sys w1) |},
                     Raise (AttributeError "json_log_path"))
                end
              else (w1, Ok snapshot)
          end
      end
  end.
Proof.
  unfold log, snapshot_of. unfold bind at 1. unfold get_self at 1.
  unfold bind at 1. unfold lift at 1.
  destruct (get_iter (self w) tr true) as [cur_iter | e]; [| reflexivity].
  unfold bind at 1. unfold lift at 1.
  destruct (get_epoch tr) as [epoch | e]; [| reflexivity].
  cbv zeta. unfold bind at 1. rewrite _log_info_run.
  destruct (render_text K repr _ tr w) as [w1 [line | e]]; [| reflexivity].
  unfold bind at 1. rewrite _dump_log_run.
  destruct (is_master p); [| reflexivity].
  cbn [self sys]. destruct (json_log_path (self w1)); reflexivity.
Qed.

End TickOutcomes.

(** X1: whatever a tick does, on any process and whether it returns or
    raises, it creates and removes no directory, gives at most one line to
    the logger after those already there, keeps the lines of every file and
    adds at most one after them, and leaves every file other than the log
    file of the hook untouched. *)
Theorem log_append_only (K : LogKeys) (repr : value -> string)
    (nondst : nat -> list Z -> Z)
    (get_epoch : Trainer -> result value)
    (get_iter : TextLoggerHook -> Trainer -> bool -> result value)
    (p : Process) (tr : Trainer) (w w' : World) (r : result dict) :
  log K repr nondst get_epoch get_iter p tr w = (w', r) ->
  dirs (sys w') = dirs (sys w) /\
  (exists extra, sink (sys w') = sink (sys w) ++ extra /\ (length extra <= 1)%nat) /\
  (forall path lines,
     files (sys w) !! path = Some lines ->
     exists more, files (sys w') !! path = Some (lines ++ more) /\ (length more <= 1)%nat) /\
  (forall path,
     json_log_path (self w) <> Some path ->
     files (sys w') !! path = files (sys w) !! path).
Proof.
  intros H. rewrite log_run in H.
  assert (Hsame :
    sys w' = sys w ->
    dirs (sys w') = dirs (sys w) /\
    (exists extra, sink (sys w') = sink (sys w) ++ extra /\ (length extra <= 1)%nat) /\
    (forall path lines,
       files (sys w) !! path = Some lines ->
       exists more, files (sys w') !! path = Some (lines ++ more) /\ (length more <= 1)%nat) /\
    (forall path,
       json_log_path (self w) <> Some path ->
       files (sys w') !! path = files (sys w) !! path)).
  { intros ->. split; [reflexivity |]. split; [| split].
    - exists []. rewrite app_nil_r. split; [reflexivity | cbn; lia].
    - intros path lines Hl. exists []. rewrite app_nil_r. split; [exact Hl | cbn; lia].
    - reflexivity. }
  destruct (get_iter (self w) tr true) as [cur_iter | e0];
    [| injection H as <- <-; apply Hsame; reflexivity].
  destruct (get_epoch tr) as [epoch | e0];
    [| injection H as <- <-; apply Hsame; reflexivity].
  cbv zeta in H.
  destruct (render_text K repr (snapshot_of K nondst p tr epoch cur_iter) tr w)
    as [w1 [line | e0]] eqn:Hrender;
    pose proof (render_text_same_sys K repr _ tr w w1 _ Hrender) as Hsys;
    pose proof (render_text_same_config K repr _ tr w w1 _ Hrender)
      as (_ & _ & _ & _ & Hpath);
    unfold same_sys in Hsys;
    [| injection H as <- <-; apply Hsame; exact Hsys].
  destruct (is_master p); [| injection H as <- <-; apply Hsame; exact Hsys].
  rewrite Hpath in H.
  destruct (json_log_path (self w)) as [path0 |]; injection H as <- <-; cbn; rewrite Hsys.
  - split; [reflexivity |]. split; [| split].
    + exists [line]. split; [reflexivity | cbn; lia].
    + intros path lines Hl. destruct (decide (path0 = path)) as [-> | Hne].
      * rewrite lookup_insert_eq, Hl. cbn. exists [json_log_of (snapshot_of K nondst p tr epoch cur_iter)].
        split; [reflexivity | cbn; lia].
      * rewrite lookup_insert_ne by exact Hne. exists []. rewrite app_nil_r.
        split; [exact Hl | cbn; lia].
    + intros path Hne. apply lookup_insert_ne. congruence.
  - split; [reflexivity |]. split; [| split].
    + exists [line]. split; [reflexivity | cbn; lia].
    + intros path lines Hl. exists []. rewrite app_nil_r. split; [exact Hl | cbn; lia].
    + reflexivity.
Qed.

(** The sample training tick on rank 0: the metadata record written by
    [before_run] is still the first line of the log file. *)
Lemma log_append_only_witness :
  exists more,
    files (sys (fst (Sample.tick Sample.master Sample.trainer0 Sample.started)))
      !! "work/20230101_000000.log.json" =
    Some ([[("seed", VInt 42); ("base_lr", VFloat (dec 12346 (-5)))]] ++ more) /\
    (length more <= 1)%nat.
Proof.
  destruct (log_append_only default_keys Sample.repr0 keep_local Sample.get_epoch0
              Sample.get_iter0 Sample.master Sample.trainer0 Sample.started
              (fst (Sample.tick Sample.master Sample.trainer0 Sample.started))
              (snd (Sample.tick Sample.master Sample.trainer0 Sample.started))
              (surjective_pairing _)) as (_ & _ & Hfiles & _).
  apply (Hfiles "work/20230101_000000.log.json"). vm_compute. reflexivity.
Defined.

(** X2: a tick whose rendering raises, raises the same exception, and
    nothing has been given to the logger nor written to any file, on the
    single writer as on any other process. *)
Theorem log_failed_render_writes_nothing (K : LogKeys) (repr : value -> string)
    (nondst : nat -> list Z -> Z)
    (get_epoch : Trainer -> result value)
    (get_iter : TextLoggerHook -> Trainer -> bool -> result value)
    (p : Process) (tr : Trainer) (w w1 : World) (epoch cur_iter : value) (e : exn) :
  get_iter (self w) tr true = Ok cur_iter ->
  get_epoch tr = Ok epoch ->
  render_text K repr (snapshot_of K nondst p tr epoch cur_iter) tr w = (w1, Raise e) ->
  log K repr nondst get_epoch get_iter p tr w = (w1, Raise e) /\
  sys w1 = sys w.
Proof.
  intros Hi He Hrender. split.
  - rewrite log_run, Hi, He. cbv zeta. rewrite Hrender. reflexivity.
  - exact (render_text_same_sys K repr _ tr w w1 _ Hrender).
Qed.

(** The sample tick on rank 0 whose buffer lacks the data-load time: the
    [KeyError] comes out of [log] and the sink and the files are as before. *)
Lemma log_failed_render_writes_nothing_witness :
  snd (Sample.tick Sample.master Sample.trainer_no_data_load Sample.started) =
    Raise (KeyError "data_load_time") /\
  sys (fst (Sample.tick Sample.master Sample.trainer_no_data_load Sample.started)) =
    sys Sample.started.
Proof.
  destruct (log_failed_render_writes_nothing default_keys Sample.repr0 keep_local
              Sample.get_epoch0 Sample.get_iter0 Sample.master Sample.trainer_no_data_load
              Sample.started
              (fst (render_text default_keys Sample.repr0
                      (snapshot_of default_keys keep_local Sample.master
                         Sample.trainer_no_data_load (VInt 4) (VInt 100))
                      Sample.trainer_no_data_load Sample.started))
              (VInt 4) (VInt 100) (KeyError "data_load_time")
              eq_refl eq_refl ltac:(vm_compute; reflexivity)) as [Hlog Hsys].
  unfold Sample.tick. rewrite Hlog. split; [reflexivity | exact Hsys].
Defined.

(** X3: on the single writer, a tick of a hook whose log path is not set
    (no [before_run] yet) and whose rendering returns: the line is given to
    the logger, then [AttributeError] is raised and no file is written. *)
Theorem log_without_log_path (K : LogKeys) (repr : value -> string)
    (nondst : nat -> list Z -> Z)
    (get_epoch : Trainer -> result value)
    (get_iter : TextLoggerHook -> Trainer -> bool -> result value)
    (p : Process) (tr : Trainer) (w w1 : World) (epoch cur_iter : value) (line : string) :
  is_master p = true ->
  json_log_path (self w) = None ->
  get_iter (self w) tr true = Ok cur_iter ->
  get_epoch tr = Ok epoch ->
  render_text K repr (snapshot_of K nondst p tr epoch cur_iter) tr w = (w1, Ok line) ->
  log K repr nondst get_epoch get_iter p tr w =
    ({| self := self w1; sys := emit line (sys w) |},
     Raise (AttributeError "json_log_path")) /\
  sink (emit line (sys w)) = sink (sys w) ++ [line] /\
  files (emit line (sys w)) = files (sys w).
Proof.
  intros Hp Hpath Hi He Hrender.
  pose proof (render_text_same_sys K repr _ tr w w1 _ Hrender) as Hsys.
  pose proof (render_text_same_config K repr _ tr w w1 _ Hrender) as (_ & _ & _ & _ & Hcfg).
  unfold same_sys in Hsys.
  split; [| split; reflexivity].
  rewrite log_run, Hi, He. cbv zeta. rewrite Hrender, Hp, Hcfg, Hpath, Hsys. reflexivity.
Qed.

(** The sample evaluation tick on rank 0 of a hook just constructed. *)
Lemma log_without_log_path_witness :
  snd (Sample.tick Sample.master Sample.trainer_eval Sample.fresh) =
    Raise (AttributeError "json_log_path") /\
  sink (sys (fst (Sample.tick Sample.master Sample.trainer_eval Sample.fresh))) =
    ["epoch(eval) [4][100]" +:+ tab +:+ "memory: 300, lr: 0.0010, accuracy: 0.9877"].
Proof.
  destruct (log_without_log_path default_keys Sample.repr0 keep_local
              Sample.get_epoch0 Sample.get_iter0 Sample.master Sample.trainer_eval
              Sample.fresh
              (fst (render_text default_keys Sample.repr0
                      (snapshot_of default_keys keep_local Sample.master
                         Sample.trainer_eval (VInt 4) (VInt 100))
                      Sample.trainer_eval Sample.fresh))
              (VInt 4) (VInt 100)
              ("epoch(eval) [4][100]" +:+ tab +:+ "memory: 300, lr: 0.0010, accuracy: 0.9877")
              eq_refl eq_refl eq_refl eq_refl ltac:(vm_compute; reflexivity)) as [Hlog _].
  unfold Sample.tick. rewrite Hlog. split; reflexivity.
Defined.

(** ** What a tick changes in the hook *)

Lemma establishes_bind_lift {A B : Type} (R : World -> World -> Prop)
    `{!Reflexive R} (r : result A) (k : A -> M B) :
  (forall a, r = Ok a -> establishes R (k a)) -> establishes R (bind (lift r) k).
Proof.
  intros Hk w w' r'. unfold bind, lift. destruct r as [a | e]; intros H.
  - exact (Hk a eq_refl w w' r' H).
  - injection H as <- <-. reflexivity.
Qed.

#[local] Instance same_tot_refl : Reflexive same_tot.
Proof. intros w. reflexivity. Qed.

#[local] Instance same_tot_trans : Transitive same_tot.
Proof. intros w1 w2 w3 H1 H2. unfold same_tot in *. congruence. Qed.

(** Rendering leaves the accumulator alone outside training and when the
    iteration time is absent, whether it returns or raises. *)
Lemma render_text_keeps_tot (K : LogKeys) (repr : value -> string)
    (d : dict) (tr : Trainer) :
  train_mode K d = false \/ dict_mem (ITER_TIME K) d = false ->
  establishes same_tot (render_text K repr d tr).
Proof.
  intros [Hm | Hmem]; unfold render_text.
  - apply establishes_bind_lift; [exact _ |]. intros mode_val Hmode.
    apply getitem_Ok in Hmode. unfold train_mode in Hm. rewrite Hmode in Hm.
    destruct mode_val as [| | | | m | |]; try rewrite Hm;
      frame_steps; apply establishes_modify_self; intros w0; reflexivity.
  - rewrite Hmem. frame_steps; apply establishes_modify_self; intros w0; reflexivity.
Qed.

(** X4: a tick, whether it returns or raises, leaves [by_epoch],
    [interval], [out_dir], [start_iter] and [json_log_path] of the hook as
    they were; and it leaves the accumulator [time_sec_tot] as it was unless
    its snapshot is a training snapshot with the iteration time. *)
Theorem log_keeps_configuration (K : LogKeys) (repr : value -> string)
    (nondst : nat -> list Z -> Z)
    (get_epoch : Trainer -> result value)
    (get_iter : TextLoggerHook -> Trainer -> bool -> result value)
    (p : Process) (tr : Trainer) (w w' : World) (r : result dict) :
  log K repr nondst get_epoch get_iter p tr w = (w', r) ->
  by_epoch (self w') = by_epoch (self w) /\
  interval (self w') = interval (self w) /\
  out_dir (self w') = out_dir (self w) /\
  start_iter (self w') = start_iter (self w) /\
  json_log_path (self w') = json_log_path (self w) /\
  (forall epoch cur_iter,
     get_iter (self w) tr true = Ok cur_iter ->
     get_epoch tr = Ok epoch ->
     train_mode K (snapshot_of K nondst p tr epoch cur_iter) = false \/
     dict_mem (ITER_TIME K) (snapshot_of K nondst p tr epoch cur_iter) = false ->
     time_sec_tot (self w') = time_sec_tot (self w)).
Proof.
  intros H. rewrite log_run in H.
  destruct (get_iter (self w) tr true) as [cur_iter | e0];
    [| injection H as <- <-; repeat split; reflexivity].
  destruct (get_epoch tr) as [epoch | e0];
    [| injection H as <- <-; repeat split; reflexivity].
  cbv zeta in H.
  destruct (render_text K repr (snapshot_of K nondst p tr epoch cur_iter) tr w)
    as [w1 r1] eqn:Hrender.
  pose proof (render_text_same_config K repr _ tr w w1 _ Hrender)
    as (Hb & Hi & Ho & Hs & Hj).
  assert (Hself : self w' = self w1).
  { destruct r1 as [line | e0]; [| injection H as <- <-; reflexivity].
    destruct (is_master p); [| injection H as <- <-; reflexivity].
    destruct (json_log_path (self w1)); injection H as <- <-; reflexivity. }
  rewrite Hself. repeat (split; [assumption |]).
  intros epoch' cur_iter' E1 E2 Hcond. injection E1 as <-. injection E2 as <-.
  exact (render_text_keeps_tot K repr _ tr Hcond w w1 r1 Hrender).
Qed.

(** The sample evaluation tick after the sample training tick: the 5.0
    seconds accumulated by the training tick are still there. *)
Lemma log_keeps_configuration_witness :
  time_sec_tot
    (self (fst (Sample.tick Sample.master Sample.trainer_eval
                  (fst (Sample.tick Sample.master Sample.trainer0 Sample.started))))) =
  NFloat (dec 5 0).
Proof.
  destruct (log_keeps_configuration default_keys Sample.repr0 keep_local
              Sample.get_epoch0 Sample.get_iter0 Sample.master Sample.trainer_eval
              (fst (Sample.tick Sample.master Sample.trainer0 Sample.started))
              (fst (Sample.tick Sample.master Sample.trainer_eval
                      (fst (Sample.tick Sample.master Sample.trainer0 Sample.started))))
              (snd (Sample.tick Sample.master Sample.trainer_eval
                      (fst (Sample.tick Sample.master Sample.trainer0 Sample.started))))
              (surjective_pairing _)) as (_ & _ & _ & _ & _ & Htot).
  rewrite (Htot (VInt 4) (VInt 100) eq_refl eq_refl (or_introl eq_refl)).
  vm_compute. reflexivity.
Defined.

(** ** Exceptions of an initialised hook *)

Lemma bind_Raise_inv {A B : Type} (m : M A) (k : A -> M B) (w w' : World) (e : exn) :
  bind m k w = (w', Raise e) ->
  m w = (w', Raise e) \/ exists w1 a, m w = (w1, Ok a) /\ k a w1 = (w', Raise e).
Proof.
  unfold bind. destruct (m w) as [w1 [a | e0]]; intros H.
  - right. exists w1, a. split; [reflexivity | exact H].
  - left. injection H as <- <-. reflexivity.
Qed.

Lemma getitem_Raise (d : dict) (k : string) (e : exn) :
  getitem d k = Raise e -> is_attribute_error e = false.
Proof.
  unfold getitem. destruct (dict_get d k); [discriminate |].
  intros H. injection H as <-. reflexivity.
Qed.

Lemma to_float_Raise (n : num) (e : exn) :
  to_float n = Raise e -> is_attribute_error e = false.
Proof.
  destruct n as [z | f]; cbn; [| discriminate].
  destruct (is_finite (of_Z z)); [discriminate |].
  intros H. injection H as <-. reflexivity.
Qed.

Lemma float_op_Raise (op : float -> float -> float) (a b : num) (e : exn) :
  float_op op a b = Raise e -> is_attribute_error e = false.
Proof.
  unfold float_op.
  destruct (to_float a) as [fa |] eqn:Ea; cbn; [| intros H; injection H as <-; eauto using to_float_Raise].
  destruct (to_float b) as [fb |] eqn:Eb; cbn; [discriminate |].
  intros H. injection H as <-. eauto using to_float_Raise.
Qed.

Lemma py_add_Raise (a b : num) (e : exn) :
  py_add a b = Raise e -> is_attribute_error e = false.
Proof. destruct a, b; cbn [py_add]; try discriminate; apply float_op_Raise. Qed.

Lemma py_mul_Raise (a b : num) (e : exn) :
  py_mul a b = Raise e -> is_attribute_error e = false.
Proof. destruct a, b; cbn [py_mul]; try discriminate; apply float_op_Raise. Qed.

Lemma py_truediv_Raise (a b : num) (e : exn) :
  py_truediv a b = Raise e -> is_attribute_error e = false.
Proof.
  assert (Hmixed : forall a b,
            rbind (to_float a) (fun fa =>
            rbind (to_float b) (fun fb =>
            if is_zero fb then Raise ZeroDivisionError else Ok (NFloat (fdiv fa fb)))) = Raise e ->
            is_attribute_error e = false).
  { intros a0 b0.
    destruct (to_float a0) as [fa |] eqn:Ea; cbn;
      [| intros H; injection H as <-; eauto using to_float_Raise].
    destruct (to_float b0) as [fb |] eqn:Eb; cbn;
      [| intros H; injection H as <-; eauto using to_float_Raise].
    destruct (is_zero fb); [| discriminate]. intros H. injection H as <-. reflexivity. }
  destruct a as [x | fa], b as [y | fb]; try apply Hmixed.
  unfold py_truediv. destruct (y =? 0); [intros H; injection H as <-; reflexivity |].
  destruct (is_finite _); [discriminate |]. intros H. injection H as <-. reflexivity.
Qed.

Lemma py_int_Raise (a : num) (e : exn) :
  py_int a = Raise e -> is_attribute_error e = false.
Proof.
  destruct a as [z | f]; [discriminate |].
  destruct f; cbn; try discriminate; try (intros H; injection H as <-; reflexivity).
  destruct (exact m e0). discriminate.
Qed.

Lemma timedelta_str_Raise (n : Z) (e : exn) :
  timedelta_str n = Raise e -> is_attribute_error e = false.
Proof.
  unfold timedelta_str. destruct (999999999 <? Z.abs (n / 86400)); [| discriminate].
  intros H. injection H as <-. reflexivity.
Qed.

Lemma format_with_Raise (fmt : float -> string) (v : value) (e : exn) :
  format_with fmt v = Raise e -> is_attribute_error e = false.
Proof.
  unfold format_with.
  destruct v as [| b | z | f | s | l | g]; cbn [as_num];
    try (intros H; injection H as <-; reflexivity);
    match goal with
    | |- rbind (to_float ?n) _ = _ -> _ =>
        destruct (to_float n) as [f0 |] eqn:Ef; cbn;
        [discriminate | intros H; injection H as <-; eauto using to_float_Raise]
    end.
Qed.

Lemma times_interval_Raise (v : value) (i : Z) (e : exn) :
  times_interval v i = Raise e -> is_attribute_error e = false.
Proof.
  unfold times_interval. destruct (as_num v); [apply py_mul_Raise |].
  intros H. injection H as <-. reflexivity.
Qed.

Section PureSteps.
Variable K : LogKeys.
Variable repr : value -> string.

Lemma lr_group_items_Raise (groups : dict) (e : exn) :
  lr_group_items K groups = Raise e -> is_attribute_error e = false.
Proof.
  induction groups as [| [k v] groups IH]; cbn; [discriminate |].
  destruct (format_3e v) as [s |] eqn:Es; cbn;
    [| intros H; injection H as <-; exact (format_with_Raise _ _ _ Es)].
  destruct (lr_group_items K groups) as [items |]; cbn; [discriminate |].
  intros H. injection H as <-. apply IH. reflexivity.
Qed.

Lemma lr_str_of_Raise (lr : value) (e : exn) :
  lr_str_of K lr = Raise e -> is_attribute_error e = false.
Proof.
  assert (Hsingle : rbind (format_3e lr) (fun s => Ok (LR K +:+ ": " +:+ s)) = Raise e ->
                    is_attribute_error e = false).
  { destruct (format_3e lr) as [s |] eqn:Es; cbn; [discriminate |].
    intros H. injection H as <-. exact (format_with_Raise _ _ _ Es). }
  destruct lr as [| b | z | f | s | l | groups]; try exact Hsingle.
  cbn. destruct (lr_group_items K groups) as [items |] eqn:Ei; cbn; [discriminate |].
  intros H. injection H as <-. exact (lr_group_items_Raise _ _ Ei).
Qed.

Lemma train_prefix_Raise (b : bool) (d : dict) (tr : Trainer) (e : exn) :
  train_prefix K repr b d tr = Raise e -> is_attribute_error e = false.
Proof.
  unfold train_prefix. destruct b.
  - destruct (getitem d (EPOCH K)) as [x |] eqn:E1; cbn;
      [| intros H; injection H as <-; exact (getitem_Raise _ _ _ E1)].
    destruct (getitem d (ITER K)) as [y |] eqn:E2; cbn; [discriminate |].
    intros H. injection H as <-. exact (getitem_Raise _ _ _ E2).
  - destruct (getitem d (ITER K)) as [y |] eqn:E2; cbn; [discriminate |].
    intros H. injection H as <-. exact (getitem_Raise _ _ _ E2).
Qed.

Lemma eval_prefix_Raise (b : bool) (mode_val : value) (d : dict) (e : exn) :
  eval_prefix K repr b mode_val d = Raise e -> is_attribute_error e = false.
Proof.
  unfold eval_prefix. destruct b.
  - destruct (getitem d (EPOCH K)) as [x |] eqn:E1; cbn;
      [| intros H; injection H as <-; exact (getitem_Raise _ _ _ E1)].
    destruct (getitem d (ITER K)) as [y |] eqn:E2; cbn; [discriminate |].
    intros H. injection H as <-. exact (getitem_Raise _ _ _ E2).
  - destruct (getitem d (ITER K)) as [y |] eqn:E2; cbn; [discriminate |].
    intros H. injection H as <-. exact (getitem_Raise _ _ _ E2).
Qed.

End PureSteps.

Create HintDb no_attr.

#[local] Hint Resolve getitem_Raise py_add_Raise py_mul_Raise py_truediv_Raise py_int_Raise
  timedelta_str_Raise format_with_Raise times_interval_Raise lr_str_of_Raise
  train_prefix_Raise eval_prefix_Raise : no_attr.

(** Follows a raising run in [H] through the binds: the step that raised
    is a pure one, closed by the lemmas above, or one that cannot raise. *)
Ltac raise_steps H :=
  repeat
    (let w1 := fresh "w" in
     let a := fresh "x" in
     let Hstep := fresh "Hstep" in
     apply bind_Raise_inv in H;
     destruct H as [H | (w1 & a & Hstep & H)];
     [ first
         [ discriminate H
         | unfold lift in H; injection H as <- H; solve [eauto with no_attr]
         | match goal with
           | Hs : start_iter _ = Some _ |- _ => rewrite Hs in H; discriminate H
           end ]
     | first
         [ apply get_self_inv in Hstep; destruct Hstep as [-> ->]
         | apply modify_self_inv in Hstep; subst w1
         | apply attr_Ok_inv in Hstep; destruct Hstep as [-> Hstep]
         | apply lift_Ok_inv in Hstep; destruct Hstep as [-> Hstep]
         | idtac ] ]).

Section NoAttributeError.
Variable K : LogKeys.
Variable repr : value -> string.

Lemma timing_segments_Raise (d : dict) (tr : Trainer) (w w' : World) (e : exn) :
  is_Some (start_iter (self w)) ->
  timing_segments K d tr w = (w', Raise e) ->
  is_attribute_error e = false.
Proof.
  intros [s Hs] H. unfold timing_segments in H. raise_steps H.
  discriminate H.
Qed.

Lemma render_text_Raise (d : dict) (tr : Trainer) (w w' : World) (e : exn) :
  is_Some (start_iter (self w)) ->
  render_text K repr d tr w = (w', Raise e) ->
  is_attribute_error e = false.
Proof.
  intros Hs H. unfold render_text in H.
  apply bind_Raise_inv in H as [H | (w0 & mode_val & Hmode & H)];
    [unfold lift in H; injection H as <- H; eauto with no_attr |].
  apply lift_Ok_inv in Hmode as [-> _].
  apply bind_Raise_inv in H as [H | (w0 & h & Hh & H)]; [discriminate H |].
  apply get_self_inv in Hh as [-> ->].
  apply bind_Raise_inv in H as [H | (w0 & log_str & _ & H)];
    [| raise_steps H; discriminate H].
  assert (Heval :
    (prefix <- lift (eval_prefix K repr (by_epoch (self w)) mode_val d) ;;
     modify_self (extend_logged_keys [MODE K; ITER K; EPOCH K]) ;;;
     ret prefix) w = (w', Raise e) ->
    is_attribute_error e = false).
  { intros Hb. raise_steps Hb. discriminate Hb. }
  destruct mode_val as [| | | | m | |]; try exact (Heval H).
  destruct (String.eqb m (TRAIN K)); [| exact (Heval H)].
  apply bind_Raise_inv in H as [H | (w0 & lr & Hlr & H)];
    [unfold lift in H; injection H as <- H; eauto with no_attr |].
  apply lift_Ok_inv in Hlr as [-> _].
  apply bind_Raise_inv in H as [H | (w0 & lr_str & Hstr & H)];
    [unfold lift in H; injection H as <- H; eauto with no_attr |].
  apply lift_Ok_inv in Hstr as [-> _].
  apply bind_Raise_inv in H as [H | (w0 & prefix & Hpre & H)];
    [unfold lift in H; injection H as <- H; eauto with no_attr |].
  apply lift_Ok_inv in Hpre as [-> _].
  apply bind_Raise_inv in H as [H | (w0 & u & Hmark & H)]; [discriminate H |].
  apply modify_self_inv in Hmark. subst w0.
  destruct (dict_mem (ITER_TIME K) d); [| discriminate H].
  apply bind_Raise_inv in H as [H | (w0 & timing & _ & H)]; [| discriminate H].
  exact (timing_segments_Raise d tr
           {| self := extend_logged_keys [LR K; MODE K; ITER K; EPOCH K] (self w);
              sys := sys w |} w' e Hs H).
Qed.

End NoAttributeError.

(** X5: on a hook that [before_run] has initialised ([start_iter] and
    [json_log_path] set), a tick raises no [AttributeError] of its own
    (the base class's [get_iter] and [get_epoch] raising none), and it
    leaves the hook initialised for the next tick. *)
Theorem initialised_tick_raises_no_attribute_error (K : LogKeys)
    (repr : value -> string) (nondst : nat -> list Z -> Z)
    (get_epoch : Trainer -> result value)
    (get_iter : TextLoggerHook -> Trainer -> bool -> result value)
    (p : Process) (tr : Trainer) (w w' : World) (r : result dict) :
  initialised w ->
  (forall h t b e, get_iter h t b = Raise e -> is_attribute_error e = false) ->
  (forall t e, get_epoch t = Raise e -> is_attribute_error e = false) ->
  log K repr nondst get_epoch get_iter p tr w = (w', r) ->
  initialised w' /\
  (forall e, r = Raise e -> is_attribute_error e = false).
Proof.
  intros [Hs Hj] Hgi Hge H. rewrite log_run in H.
  destruct (get_iter (self w) tr true) as [cur_iter | e0] eqn:Ei;
    [| injection H as <- <-; split; [split; assumption |];
       intros e E; injection E as <-; exact (Hgi _ _ _ _ Ei)].
  destruct (get_epoch tr) as [epoch | e0] eqn:Ee;
    [| injection H as <- <-; split; [split; assumption |];
       intros e E; injection E as <-; exact (Hge _ _ Ee)].
  cbv zeta in H.
  destruct (render_text K repr (snapshot_of K nondst p tr epoch cur_iter) tr w)
    as [w1 r1] eqn:Hrender.
  pose proof (render_text_same_config K repr _ tr w w1 _ Hrender)
    as (_ & _ & _ & Hstart & Hpath).
  assert (Hinit : initialised w1) by (unfold initialised; rewrite Hstart, Hpath; split; assumption).
  destruct r1 as [line | e0].
  - destruct (is_master p).
    + destruct Hinit as [Hs1 [path Hj1]]. rewrite Hj1 in H. injection H as <- <-.
      split; [split; [exact Hs1 | exists path; exact Hj1] | discriminate].
    + injection H as <- <-. split; [exact Hinit | discriminate].
  - injection H as <- <-. split; [exact Hinit |].
    intros e E. injection E as <-.
    exact (render_text_Raise K repr _ tr w w1 e0 Hs Hrender).
Qed.

(** The hook as [before_run] left it on rank 0, and the sample tick whose
    buffer lacks the data-load time: the hook stays initialised. *)
Lemma initialised_tick_raises_no_attribute_error_witness :
  initialised (fst (Sample.tick Sample.master Sample.trainer_no_data_load Sample.started)).
Proof.
  destruct (initialised_tick_raises_no_attribute_error default_keys Sample.repr0
              keep_local Sample.get_epoch0 Sample.get_iter0 Sample.master
              Sample.trainer_no_data_load Sample.started
              (fst (Sample.tick Sample.master Sample.trainer_no_data_load Sample.started))
              (snd (Sample.tick Sample.master Sample.trainer_no_data_load Sample.started))
              (conj (ex_intro _ 99 eq_refl)
                    (ex_intro _ "work/20230101_000000.log.json" eq_refl))
              ltac:(intros h t b e E; discriminate E)
              ltac:(intros t e E; discriminate E)
              (surjective_pairing _)) as [Hinit _].
  exact Hinit.
Defined.

(** ** Ticks outside training, and ticks that fail early *)

Lemma getitem_None (d : dict) (k : string) :
  dict_get d k = None -> getitem d k = Raise (KeyError k).
Proof. unfold getitem. intros ->. reflexivity. Qed.

(** X6: a tick outside training mode renders exactly when its snapshot has
    the mode, the iteration and, displayed by epoch, the epoch; the line is
    then the prefix ["epoch(<mode>) [E][I]"] or ["iter(<mode>) [I]"], a tab,
    and the items not marked, with no learning-rate, ETA or timing segment;
    the tick marks the mode, the iteration and the epoch and changes nothing
    else. *)
Theorem render_text_outside_training (K : LogKeys) (repr : value -> string)
    (d : dict) (tr : Trainer) (w w' : World) (line : string) :
  train_mode K d = false ->
  render_text K repr d tr w = (w', Ok line) <->
  exists mode_val i,
    dict_get d (MODE K) = Some mode_val /\
    dict_get d (ITER K) = Some i /\
    w' = {| self := extend_logged_keys [MODE K; ITER K; EPOCH K] (self w);
            sys := sys w |} /\
    if by_epoch (self w) then
      exists e,
        dict_get d (EPOCH K) = Some e /\
        line = EPOCH K +:+ "(" +:+ py_str repr mode_val +:+ ") [" +:+ py_str repr e +:+
               "][" +:+ py_str repr i +:+ "]" +:+ tab +:+
               join ", " (log_items repr (_logged_keys (self w) ++ [MODE K; ITER K; EPOCH K]) d)
    else
      line = ITER K +:+ "(" +:+ py_str repr mode_val +:+ ") [" +:+ py_str repr i +:+
             "]" +:+ tab +:+
             join ", " (log_items repr (_logged_keys (self w) ++ [MODE K; ITER K; EPOCH K]) d).
Proof.
  intros Hm. split.
  - intros H.
    destruct (render_text_eval_Ok K repr d tr w w' line Hm H)
      as (mode_val & prefix & Hmode & Hpre & Hw' & Hline).
    subst w'. cbn in Hline. unfold eval_prefix in Hpre.
    destruct (by_epoch (self w)).
    + destruct (getitem d (EPOCH K)) as [e |] eqn:He; [| discriminate Hpre].
      cbn in Hpre.
      destruct (getitem d (ITER K)) as [i |] eqn:Hi; [| discriminate Hpre].
      cbn in Hpre. injection Hpre as <-.
      apply getitem_Ok in He, Hi.
      exists mode_val, i. repeat (split; [assumption || reflexivity |]).
      exists e. split; [exact He |]. rewrite Hline, !str_app_assoc. reflexivity.
    + destruct (getitem d (ITER K)) as [i |] eqn:Hi; [| discriminate Hpre].
      cbn in Hpre. injection Hpre as <-. apply getitem_Ok in Hi.
      exists mode_val, i. repeat (split; [assumption || reflexivity |]).
      rewrite Hline, !str_app_assoc. reflexivity.
  - intros (mode_val & i & Hmode & Hi & -> & Hline).
    apply getitem_Ok in Hi.
    destruct (by_epoch (self w)) eqn:Hb.
    + destruct Hline as (e & He & ->). apply getitem_Ok in He.
      rewrite (render_text_eval_intro K repr d tr w mode_val
                 (EPOCH K +:+ "(" +:+ py_str repr mode_val +:+ ") [" +:+ py_str repr e +:+
                  "][" +:+ py_str repr i +:+ "]" +:+ tab) Hm Hmode).
      * rewrite !str_app_assoc. reflexivity.
      * unfold eval_prefix. rewrite Hb, He, Hi. reflexivity.
    + subst line.
      rewrite (render_text_eval_intro K repr d tr w mode_val
                 (ITER K +:+ "(" +:+ py_str repr mode_val +:+ ") [" +:+ py_str repr i +:+
                  "]" +:+ tab) Hm Hmode).
      * rewrite !str_app_assoc. reflexivity.
      * unfold eval_prefix. rewrite Hb, Hi. reflexivity.
Qed.

(** The sample evaluation snapshot on the initialised hook. *)
Lemma render_text_outside_training_witness :
  render_text default_keys Sample.repr0 Sample.eval_with_lr Sample.trainer_eval
    Sample.started =
  ({| self := extend_logged_keys ["mode"; "iter"; "epoch"] (self Sample.started);
      sys := sys Sample.started |},
   Ok ("epoch(eval) [4][100]" +:+ tab +:+ "lr: 0.0010, accuracy: 0.9877")).
Proof.
  apply (proj2 (render_text_outside_training default_keys Sample.repr0 Sample.eval_with_lr
                  Sample.trainer_eval Sample.started _ _ eq_refl)).
  exists (VStr "eval"), (VInt 100). repeat (split; [reflexivity |]).
  exists (VInt 4). split; reflexivity.
Defined.

(** X7: a tick that fails before it marks any key leaves the hook and
    everything outside exactly as they were: a snapshot without the mode
    raises [KeyError] on it; a training snapshot without the learning rate
    raises [KeyError] on it; a learning rate that does not format (a str
    raises [ValueError]; [None] or a list raise [TypeError]) or a prefix
    whose key is missing raise in the same way. *)
Theorem render_text_early_failure (K : LogKeys) (repr : value -> string)
    (d : dict) (tr : Trainer) (w : World) :
  (dict_get d (MODE K) = None ->
   render_text K repr d tr w = (w, Raise (KeyError (MODE K)))) /\
  (is_train K d ->
   (dict_get d (LR K) = None ->
    render_text K repr d tr w = (w, Raise (KeyError (LR K)))) /\
   (forall lr e,
      dict_get d (LR K) = Some lr -> lr_str_of K lr = Raise e ->
      render_text K repr d tr w = (w, Raise e)) /\
   (forall lr lr_str e,
      dict_get d (LR K) = Some lr -> lr_str_of K lr = Ok lr_str ->
      train_prefix K repr (by_epoch (self w)) d tr = Raise e ->
      render_text K repr d tr w = (w, Raise e)) /\
   (dict_get d (ITER K) = None ->
    exists key, train_prefix K repr (by_epoch (self w)) d tr = Raise (KeyError key))) /\
  (forall s, lr_str_of K (VStr s) = Raise ValueError) /\
  lr_str_of K VNone = Raise TypeError /\
  (forall l, lr_str_of K (VList l) = Raise TypeError) /\
  (train_mode K d = false ->
   forall mode_val e,
     dict_get d (MODE K) = Some mode_val ->
     eval_prefix K repr (by_epoch (self w)) mode_val d = Raise e ->
     render_text K repr d tr w = (w, Raise e)).
Proof.
  split; [| split; [| split; [| split; [| split]]]]; try reflexivity.
  - intros Hmode. unfold render_text, bind, lift. rewrite (getitem_None d _ Hmode).
    reflexivity.
  - intros Ht. unfold is_train in Ht.
    split; [| split; [| split]].
    + intros Hlr. unfold render_text, bind, lift, get_self, getitem.
      rewrite Ht, String.eqb_refl, Hlr. reflexivity.
    + intros lr e Hlr Hstr. unfold render_text, bind, lift, get_self, getitem.
      rewrite Ht, String.eqb_refl, Hlr, Hstr. reflexivity.
    + intros lr lr_str e Hlr Hstr Hpre. unfold render_text, bind, lift, get_self, getitem.
      rewrite Ht, String.eqb_refl, Hlr, Hstr, Hpre. reflexivity.
    + intros Hi. unfold train_prefix. rewrite (getitem_None d _ Hi).
      destruct (by_epoch (self w)); [| eexists; reflexivity].
      destruct (getitem d (EPOCH K)) as [x |] eqn:He; cbn; [eexists; reflexivity |].
      unfold getitem in He. destruct (dict_get d (EPOCH K)); [discriminate He |].
      injection He as <-. eexists. reflexivity.
  - intros Hm mode_val e Hmode Hpre. unfold train_mode in Hm. rewrite Hmode in Hm.
    unfold render_text, bind, lift, get_self, getitem. rewrite Hmode.
    destruct mode_val as [| | | | m | |]; try (rewrite Hpre; reflexivity).
    rewrite Hm, Hpre. reflexivity.
Qed.

(** A training snapshot without a learning rate, on the initialised hook. *)
Lemma render_text_early_failure_witness :
  render_text default_keys Sample.repr0
    [("mode", VStr "train"); ("epoch", VInt 4); ("iter", VInt 100)]
    Sample.trainer0 Sample.started =
  (Sample.started, Raise (KeyError "lr")).
Proof.
  destruct (render_text_early_failure default_keys Sample.repr0
              [("mode", VStr "train"); ("epoch", VInt 4); ("iter", VInt 100)]
              Sample.trainer0 Sample.started) as (_ & Htrain & _).
  destruct (Htrain eq_refl) as (Hlr & _).
  exact (Hlr eq_refl).
Defined.

(** ** Edges of the rendered line *)

Lemma str_app_nil_r (a : string) : a +:+ "" = a.
Proof.
  induction a as [| ch a IH]; [reflexivity |].
  change (String ch (a +:+ "") = String ch a). rewrite IH. reflexivity.
Qed.

Lemma log_items_all_logged (repr : value -> string) (logged_keys : list string) (d : dict) :
  (forall k, In k (keys d) -> In k logged_keys) ->
  log_items repr logged_keys d = [].
Proof.
  induction d as [| [name val] d IH]; intros Hall; cbn; [reflexivity |].
  assert (Hname : logged name logged_keys = true)
    by (apply logged_In; apply Hall; left; reflexivity).
  rewrite Hname. apply IH. intros k Hk. apply Hall. right. exact Hk.
Qed.

(** X8: when every key of the snapshot is marked, the trailing segment is
    empty and the line ends where the segments before it end: with the
    separator [", "] in training mode, with the tab of the prefix
    otherwise. *)
Theorem render_text_no_trailing_items (K : LogKeys) (repr : value -> string)
    (d : dict) (tr : Trainer) (w w' : World) (line : string) :
  render_text K repr d tr w = (w', Ok line) ->
  (forall k, In k (keys d) -> In k (_logged_keys (self w'))) ->
  exists head,
    line = head +:+ (if train_mode K d then ", " else tab).
Proof.
  intros H Hall.
  pose proof (log_items_all_logged repr _ d Hall) as Hnone.
  destruct (train_mode K d) eqn:Hm.
  - apply is_train_train_mode in Hm.
    destruct (render_text_train_Ok K repr d tr w w' line Hm H)
      as (lr & lr_str & prefix & timing & _ & _ & _ & Hbranch & Hline).
    rewrite Hnone in Hline. cbn [join] in Hline. cbv zeta in Hbranch.
    destruct (dict_mem (ITER_TIME K) d).
    + apply timing_segments_Ok in Hbranch.
      destruct Hbranch as (? & ? & ? & ? & ? & ? & ? & ? & eta_str & it_str & ? & dl_str & Hsteps).
      destruct Hsteps as (_ & _ & _ & _ & _ & _ & _ & _ & _ & _ & _ & _ & _ & ->).
      exists (prefix +:+ lr_str +:+ ", " +:+ ETA K +:+ ": " +:+ eta_str +:+ ", " +:+
              ITER_TIME K +:+ ": " +:+ it_str +:+ ", " +:+
              DATA_LOAD_TIME K +:+ ": " +:+ dl_str).
      rewrite Hline, !str_app_assoc. reflexivity.
    + destruct Hbranch as [_ ->].
      exists (prefix +:+ lr_str). rewrite Hline, !str_app_assoc. reflexivity.
  - destruct (render_text_eval_Ok K repr d tr w w' line Hm H)
      as (mode_val & prefix & _ & Hpre & _ & Hline).
    rewrite Hnone in Hline. cbn [join] in Hline. rewrite str_app_nil_r in Hline. subst line.
    unfold eval_prefix in Hpre.
    destruct (by_epoch (self w)).
    + destruct (getitem d (EPOCH K)) as [e |]; [| discriminate Hpre]. cbn in Hpre.
      destruct (getitem d (ITER K)) as [i |]; [| discriminate Hpre]. cbn in Hpre.
      injection Hpre as <-. eexists. rewrite <- !str_app_assoc. reflexivity.
    + destruct (getitem d (ITER K)) as [i |]; [| discriminate Hpre]. cbn in Hpre.
      injection Hpre as <-. eexists. rewrite <- !str_app_assoc. reflexivity.
Qed.

(** A training snapshot with nothing but the consumed keys. *)
Lemma render_text_no_trailing_items_witness :
  exists head,
    "epoch [4][100/1000]" +:+ tab +:+ "lr: 1.000e-03, " = head +:+ ", ".
Proof.
  exact (render_text_no_trailing_items default_keys Sample.repr0
           [("mode", VStr "train"); ("epoch", VInt 4); ("iter", VInt 100);
            ("lr", VFloat (dec 1 (-3)))]
           Sample.trainer0 Sample.started
           {| self := extend_logged_keys ["lr"; "mode"; "iter"; "epoch"] (self Sample.started);
              sys := sys Sample.started |}
           ("epoch [4][100/1000]" +:+ tab +:+ "lr: 1.000e-03, ")
           ltac:(vm_compute; reflexivity)
           ltac:(intros k Hk; vm_compute in Hk |- *; tauto)).
Defined.

Lemma py_truediv_float (a b r : num) :
  py_truediv a b = Ok r -> exists f, r = NFloat f.
Proof.
  assert (Hmixed : forall a0 b0,
            rbind (to_float a0) (fun fa =>
            rbind (to_float b0) (fun fb =>
            if is_zero fb then Raise ZeroDivisionError else Ok (NFloat (fdiv fa fb)))) = Ok r ->
            exists f, r = NFloat f).
  { intros a0 b0 H.
    destruct (to_float a0) as [f1 |]; [| discriminate H]. cbn [rbind] in H.
    destruct (to_float b0) as [f2 |]; [| discriminate H]. cbn [rbind] in H.
    destruct (is_zero f2); [discriminate H |]. injection H as <-. eexists. reflexivity. }
  destruct a as [x | fa], b as [y | fb]; try apply Hmixed.
  unfold py_truediv. intros H. destruct (y =? 0); [discriminate H |].
  destruct (is_finite _); [| discriminate H]. injection H as <-. eexists. reflexivity.
Qed.

(** A float times the int 0 has the integer part 0, when it has one. *)
Lemma py_int_times_zero (f : float) (eta : num) (seconds : Z) :
  py_mul (NFloat f) (NInt 0) = Ok eta -> py_int eta = Ok seconds -> seconds = 0.
Proof.
  intros Hmul Hint. cbn in Hmul. injection Hmul as <-.
  destruct f as [s | s | | s m e]; cbn in Hint; try discriminate Hint;
    injection Hint as <-; reflexivity.
Qed.

(** X9: at the last iteration of the run ([iter = max_iters - 1]) a
    training tick that renders shows an ETA of ["0:00:00"], whatever the
    iteration time and the time accumulated so far. *)
Theorem render_text_eta_last_iteration (K : LogKeys) (repr : value -> string)
    (d : dict) (tr : Trainer) (w w' : World) (line : string) :
  is_train K d ->
  dict_mem (ITER_TIME K) d = true ->
  iter tr = max_iters tr - 1 ->
  render_text K repr d tr w = (w', Ok line) ->
  exists head tail, line = head +:+ ETA K +:+ ": 0:00:00, " +:+ tail.
Proof.
  intros Ht Hmem Hlast H.
  destruct (render_text_train_Ok K repr d tr w w' line Ht H)
    as (lr & lr_str & prefix & timing & _ & _ & _ & Hbranch & Hline).
  cbv zeta in Hbranch. rewrite Hmem in Hbranch.
  apply timing_segments_Ok in Hbranch.
  destruct Hbranch as (? & ? & ? & tot & start & avg & eta & seconds & eta_str & it_str
                       & ? & dl_str & Hsteps).
  destruct Hsteps as (_ & _ & _ & _ & _ & Havg & Heta & Hsec & Hdur & _ & _ & _ & _ & ->).
  replace (max_iters tr - iter tr - 1) with 0 in Heta by lia.
  destruct (py_truediv_float _ _ _ Havg) as [f ->].
  pose proof (py_int_times_zero f eta seconds Heta Hsec) as ->.
  vm_compute in Hdur. injection Hdur as <-.
  exists (prefix +:+ lr_str +:+ ", ").
  exists (ITER_TIME K +:+ ": " +:+ it_str +:+ ", " +:+
          DATA_LOAD_TIME K +:+ ": " +:+ dl_str +:+ ", " +:+
          join ", " (log_items repr (_logged_keys (self w')) d)).
  rewrite Hline, !str_app_assoc. reflexivity.
Qed.

(** The last training tick of the sample run. *)
Lemma render_text_eta_last_iteration_witness :
  exists head tail,
    "epoch [4][100/1000]" +:+ tab +:+
    "lr: 1.000e-03, eta: 0:00:00, iter_time: 0.500, data_load_time: 0.100, " =
    head +:+ "eta" +:+ ": 0:00:00, " +:+ tail.
Proof.
  exact (render_text_eta_last_iteration default_keys Sample.repr0
           [("mode", VStr "train"); ("epoch", VInt 4); ("iter", VInt 100);
            ("lr", VFloat (dec 1 (-3))); ("iter_time", VFloat (dec 5 (-1)));
            ("data_load_time", VFloat (dec 1 (-1)))]
           Sample.trainer_last Sample.started
           (fst (render_text default_keys Sample.repr0
                   [("mode", VStr "train"); ("epoch", VInt 4); ("iter", VInt 100);
                    ("lr", VFloat (dec 1 (-3))); ("iter_time", VFloat (dec 5 (-1)));
                    ("data_load_time", VFloat (dec 1 (-1)))]
                   Sample.trainer_last Sample.started))
           ("epoch [4][100/1000]" +:+ tab +:+
            "lr: 1.000e-03, eta: 0:00:00, iter_time: 0.500, data_load_time: 0.100, ")
           eq_refl eq_refl eq_refl ltac:(vm_compute; reflexivity)).
Defined.

(** ** The memory figure of a single process *)



(** ** The snapshot of a tick *)

Lemma dict_get_set_other (d : dict) (k k' : string) (v : value) :
  k <> k' -> dict_get (dict_set d k v) k' = dict_get d k'.
Proof.
  intros Hne. induction d as [| [k0 v0] d IH]; cbn.
  - destruct (String.eqb k' k) eqn:E; [| reflexivity].
    apply String.eqb_eq in E. congruence.
  - destruct (String.eqb k k0) eqn:E; cbn.
    + apply String.eqb_eq in E. subst k0.
      destruct (String.eqb k' k) eqn:E'; [| reflexivity].
      apply String.eqb_eq in E'. congruence.
    + destruct (String.eqb k' k0); [reflexivity | exact IH].
Qed.

Lemma dict_get_not_in (d : dict) (k : string) :
  ~ In k (keys d) -> dict_get d k = None.
Proof.
  intros Hk. apply dict_mem_false. destruct (dict_mem k d) eqn:E; [| reflexivity].
  exfalso. apply Hk. unfold dict_mem in E. apply existsb_exists in E as (x & Hx & E).
  apply String.eqb_eq in E. subst x. exact Hx.
Qed.

(** [dict(d, **extra)]: the value of a key of [extra] is the one in [extra],
    the value of any other key is the one in [d]. *)
Lemma dict_get_merge (extra d : dict) (k : string) :
  List.NoDup (keys extra) ->
  dict_get (dict_merge d extra) k =
  match dict_get extra k with
  | Some v => Some v
  | None => dict_get d k
  end.
Proof.
  unfold dict_merge. revert d. induction extra as [| [k0 v0] extra IH]; intros d Hnd; cbn.
  - reflexivity.
  - apply NoDup_cons_iff in Hnd as [Hk0 Hnd]. rewrite (IH _ Hnd).
    destruct (String.eqb k k0) eqn:E.
    + apply String.eqb_eq in E. subst k0.
      rewrite (dict_get_not_in extra k Hk0). apply dict_get_set_same.
    + apply String.eqb_neq in E.
      rewrite (dict_get_set_other d k0 k v0) by congruence. reflexivity.
Qed.

Lemma keys_dict_set_head (d : dict) (k : string) (v : value) :
  exists rest, keys (dict_set d k v) = keys d ++ rest.
Proof.
  unfold keys. induction d as [| [k0 v0] d IH]; cbn.
  - exists [k]. reflexivity.
  - destruct (String.eqb k k0); cbn.
    + exists []. rewrite app_nil_r. reflexivity.
    + destruct IH as [rest Hrest]. exists rest. rewrite Hrest. reflexivity.
Qed.

Lemma keys_dict_merge_head (extra d : dict) :
  exists rest, keys (dict_merge d extra) = keys d ++ rest.
Proof.
  unfold dict_merge. revert d. induction extra as [| [k0 v0] extra IH]; intros d.
  - exists []. rewrite app_nil_r. reflexivity.
  - destruct (IH (dict_set d k0 v0)) as [rest Hrest].
    destruct (keys_dict_set_head d k0 v0) as [rest0 Hrest0].
    exists (rest0 ++ rest). cbn [fold_left fst snd]. rewrite Hrest, Hrest0, app_assoc.
    reflexivity.
Qed.

(** X11: the snapshot a tick returns starts with the keys [mode], [epoch]
    and [iter], in this order; every entry of the buffer of the trainer is
    in it with the value of the buffer, also under one of the hook's own
    keys, which it overrides in place; the mode is the mode of the trainer
    when the buffer has no entry under it. *)
Theorem log_snapshot_merges_buffer (K : LogKeys) (repr : value -> string)
    (nondst : nat -> list Z -> Z)
    (get_epoch : Trainer -> result value)
    (get_iter : TextLoggerHook -> Trainer -> bool -> result value)
    (p : Process) (tr : Trainer) (w w' : World) (snapshot : dict) :
  List.NoDup (keys (log_buffer_output tr)) ->
  log K repr nondst get_epoch get_iter p tr w = (w', Ok snapshot) ->
  (exists rest, keys snapshot = "mode" :: "epoch" :: "iter" :: rest) /\
  (forall k v, dict_get (log_buffer_output tr) k = Some v -> dict_get snapshot k = Some v) /\
  (dict_get (log_buffer_output tr) "mode" = None ->
   MEMORY K <> "mode" ->
   dict_get snapshot "mode" = Some (VStr (mode tr))) /\
  (cuda_is_available p = false ->
   MEMORY K <> "mode" -> MEMORY K <> "epoch" -> MEMORY K <> "iter" ->
   dict_get snapshot (MEMORY K) = dict_get (log_buffer_output tr) (MEMORY K)).
Proof.
  intros Hnd H.
  destruct (log_Ok K repr nondst get_epoch get_iter p tr w w' snapshot H)
    as (cur_iter & epoch & w1 & line & _ & _ & Hsnap & _).
  subst snapshot. split; [| split; [| split]].
  - destruct (keys_dict_merge_head (log_buffer_output tr)
                (base_snapshot K nondst p tr epoch cur_iter)) as [rest ->].
    unfold base_snapshot. destruct (cuda_is_available p).
    + destruct (keys_dict_set_head
                  [("mode", VStr (mode tr)); ("epoch", epoch); ("iter", cur_iter)]
                  (MEMORY K) (VInt (_get_max_memory nondst p))) as [rest0 ->].
      exists (rest0 ++ rest). reflexivity.
    + exists rest. reflexivity.
  - intros k v Hk. rewrite (dict_get_merge _ _ k Hnd), Hk. reflexivity.
  - intros Hmode Hmem. rewrite (dict_get_merge _ _ "mode" Hnd), Hmode.
    unfold base_snapshot. destruct (cuda_is_available p); [| reflexivity].
    rewrite dict_get_set_other by exact Hmem. reflexivity.
  - intros Hcuda H1 H2 H3. rewrite (dict_get_merge _ _ (MEMORY K) Hnd).
    destruct (dict_get (log_buffer_output tr) (MEMORY K)); [reflexivity |].
    unfold base_snapshot. rewrite Hcuda. cbn.
    apply String.eqb_neq in H1, H2, H3. rewrite H1, H2, H3. reflexivity.
Qed.

(** The sample training tick on rank 0: the learning rate of the buffer is
    in the snapshot. *)
Lemma log_snapshot_merges_buffer_witness :
  rbind (snd (Sample.tick Sample.master Sample.trainer0 Sample.started))
    (fun snapshot => getitem snapshot "lr") = Ok (VFloat (dec 1 (-3))).
Proof.
  destruct (Sample.tick Sample.master Sample.trainer0 Sample.started)
    as [w' [snapshot | e]] eqn:E.
  - destruct (log_snapshot_merges_buffer default_keys Sample.repr0 keep_local
                Sample.get_epoch0 Sample.get_iter0 Sample.master Sample.trainer0
                Sample.started w' snapshot
                ltac:(repeat constructor; cbn; intuition discriminate) E)
      as (_ & Hbuf & _).
    cbn. unfold getitem. rewrite (Hbuf "lr" (VFloat (dec 1 (-3))) eq_refl). reflexivity.
  - vm_compute in E. discriminate E.
Defined.

(** ** The log file of a run *)








(** ** The digits of [_round_float] *)

(** X14: the [ndigits] argument of [_round_float] reaches a float at the
    top only; the recursive call passes none, so a float inside a list, at
    any depth, is rounded to the default five digits whatever [ndigits]
    is. *)
Theorem round_float_ndigits_top_only (ndigits : nat) (v : value) (idxs : list nat)
    (f : float) :
  idxs <> [] ->
  get_path v (map Idx idxs) = Some (VFloat f) ->
  get_path (_round_float v ndigits) (map Idx idxs) = Some (VFloat (round_nd 5 f)) /\
  _round_float (VFloat f) ndigits = VFloat (round_nd ndigits f).
Proof.
  intros Hne Hp. split; [| reflexivity].
  destruct idxs as [| i idxs]; [congruence |].
  cbn in Hp |- *. destruct v as [| | | | | l |]; try discriminate Hp. cbn.
  rewrite nth_error_map. destruct (nth_error l i) as [x |]; [| discriminate Hp].
  cbn. exact (round_float_list_path_float idxs x f Hp).
Qed.

(** Two digits asked for, five given inside the list. *)
Lemma round_float_ndigits_top_only_witness :
  _round_float (VList [VFloat (dec 123456789 (-9))]) 2 = VList [VFloat (dec 12346 (-5))] /\
  _round_float (VFloat (dec 123456789 (-9))) 2 = VFloat (dec 12 (-2)).
Proof.
  destruct (round_float_ndigits_top_only 2 (VList [VFloat (dec 123456789 (-9))]) [0%nat]
              (dec 123456789 (-9)) ltac:(discriminate) eq_refl) as [Hin _].
  split; vm_compute; reflexivity.
Defined.

(** ** The prefix and the trailing items of a rendered line *)

(** X15: a training tick that renders starts its line with
    ["epoch [E][I/<iters_per_epoch>]"] when the hook displays by epoch and
    with ["iter [I/<max_iters>]"] otherwise, followed by a tab; [E] and [I]
    are the epoch and the iteration of the snapshot; displayed by iteration,
    the epoch is not read. *)
Theorem render_text_train_prefix (K : LogKeys) (repr : value -> string)
    (d : dict) (tr : Trainer) (w w' : World) (line : string) :
  is_train K d ->
  render_text K repr d tr w = (w', Ok line) ->
  exists i rest,
    dict_get d (ITER K) = Some i /\
    if by_epoch (self w) then
      exists e,
        dict_get d (EPOCH K) = Some e /\
        line = EPOCH K +:+ " [" +:+ py_str repr e +:+ "][" +:+ py_str repr i +:+ "/" +:+
               str_Z (iters_per_epoch tr) +:+ "]" +:+ tab +:+ rest
    else
      line = ITER K +:+ " [" +:+ py_str repr i +:+ "/" +:+ str_Z (max_iters tr) +:+
             "]" +:+ tab +:+ rest.
Proof.
  intros Ht H.
  destruct (render_text_train_Ok K repr d tr w w' line Ht H)
    as (lr & lr_str & prefix & timing & _ & _ & Hpre & _ & Hline).
  unfold train_prefix in Hpre. destruct (by_epoch (self w)).
  - destruct (getitem d (EPOCH K)) as [e |] eqn:He; [| discriminate Hpre]. cbn in Hpre.
    destruct (getitem d (ITER K)) as [i |] eqn:Hi; [| discriminate Hpre]. cbn in Hpre.
    injection Hpre as <-. apply getitem_Ok in He, Hi.
    exists i. eexists. split; [exact Hi |]. exists e. split; [exact He |].
    rewrite Hline, !str_app_assoc. reflexivity.
  - destruct (getitem d (ITER K)) as [i |] eqn:Hi; [| discriminate Hpre]. cbn in Hpre.
    injection Hpre as <-. apply getitem_Ok in Hi.
    exists i. eexists. split; [exact Hi |].
    rewrite Hline, !str_app_assoc. reflexivity.
Qed.

(** The sample training snapshot on a hook that displays by iteration: the
    snapshot needs no epoch. *)
Lemma render_text_train_prefix_witness :
  exists rest,
    snd (render_text default_keys Sample.repr0
           [("mode", VStr "train"); ("iter", VInt 100); ("lr", VFloat (dec 1 (-3)))]
           Sample.trainer0
           {| self := __init__ false 10 None; sys := Sample.empty_system |}) =
    Ok ("iter [100/1000]" +:+ tab +:+ rest).
Proof.
  destruct (render_text_train_prefix default_keys Sample.repr0
              [("mode", VStr "train"); ("iter", VInt 100); ("lr", VFloat (dec 1 (-3)))]
              Sample.trainer0
              {| self := __init__ false 10 None; sys := Sample.empty_system |}
              {| self := extend_logged_keys ["lr"; "mode"; "iter"; "epoch"]
                           (__init__ false 10 None);
                 sys := Sample.empty_system |}
              ("iter [100/1000]" +:+ tab +:+ "lr: 1.000e-03, ")
              eq_refl ltac:(vm_compute; reflexivity)) as (i & rest & _ & Hline).
  exists "lr: 1.000e-03, ". vm_compute. reflexivity.
Defined.

Lemma unlogged_In (logged_keys : list string) (d : dict) (k : string) (v : value) :
  In (k, v) d -> ~ In k logged_keys -> In (k, v) (unlogged logged_keys d).
Proof.
  intros Hin Hk. unfold unlogged. apply filter_In. split; [exact Hin |].
  cbn. destruct (logged k logged_keys) eqn:E; [| reflexivity].
  apply logged_In in E. contradiction.
Qed.

(** X16: the trailing segment of a tick that renders has one item per item
    of the snapshot whose key is marked neither before the tick nor by it,
    in the order of the snapshot: ["name: value"], a float with four digits
    after the point, any other value as [str] gives it. *)
Theorem render_text_trailing_items (K : LogKeys) (repr : value -> string)
    (d : dict) (tr : Trainer) (w w' : World) (line : string) :
  render_text K repr d tr w = (w', Ok line) ->
  exists head items,
    line = head +:+ join ", " items /\
    items = map (fun kv => fst kv +:+ ": " +:+
                           match snd kv with
                           | VFloat f => fmt_f 4 f
                           | _ => py_str repr (snd kv)
                           end)
              (unlogged (_logged_keys (self w) ++ consumed_keys K d) d) /\
    (forall k v,
       In (k, v) d ->
       ~ In k (_logged_keys (self w)) -> ~ In k (consumed_keys K d) ->
       In (k +:+ ": " +:+ match v with
                          | VFloat f => fmt_f 4 f
                          | _ => py_str repr v
                          end) items).
Proof.
  intros H.
  destruct (render_text_Ok_marked K repr d tr w w' line H) as [Hmarked [head Hline]].
  rewrite Hmarked, log_items_unlogged in Hline.
  exists head. eexists. split; [exact Hline |]. split; [reflexivity |].
  intros k v Hin Hbefore Hnow.
  apply (in_map (fun kv => log_item repr (fst kv) (snd kv)) _ (k, v)).
  apply unlogged_In; [exact Hin |].
  intros Happ. apply in_app_or in Happ as [Hb | Hc]; contradiction.
Qed.

(** The sample training tick: the loss is the one item left, with four
    digits. *)
Lemma render_text_trailing_items_witness :
  exists head items,
    "epoch [4][100/1000]" +:+ tab +:+
    "lr: 1.000e-03, eta: 1:15:00, iter_time: 0.500, data_load_time: 0.100, loss: 0.1235" =
    head +:+ join ", " items /\
    In "loss: 0.1235" items.
Proof.
  destruct (render_text_trailing_items default_keys Sample.repr0 Sample.train_full
              Sample.trainer0 Sample.started
              (fst (render_text default_keys Sample.repr0 Sample.train_full
                      Sample.trainer0 Sample.started))
              ("epoch [4][100/1000]" +:+ tab +:+
               "lr: 1.000e-03, eta: 1:15:00, iter_time: 0.500, data_load_time: 0.100, loss: 0.1235")
              ltac:(vm_compute; reflexivity)) as (head & items & Hline & _ & Hin).
  exists head, items. split; [exact Hline |].
  apply (Hin "loss" (VFloat (dec 123456 (-6)))).
  - vm_compute. tauto.
  - vm_compute. tauto.
  - vm_compute. intuition discriminate.
Defined.
